(** * ToothLit: a shallow embedding of background.js and contentScript.js

    The background script ([background.js]) keeps a per-domain dark-mode
    flag in [browser.storage.local] under the key ["toothlit_settings"],
    flips it when the toolbar button is clicked, updates the icon and
    posts a message into the page.  The content script
    ([contentScript.js]) applies or removes the dark-mode override.

    The platform objects the scripts use are modelled as follows:
    - [new URL(url).hostname]: the WHATWG URL parser, on a string of
      bytes with no base URL, as far as it decides the hostname
      (percent-decoding, IPv4 and IPv6 hosts, opaque hosts); the UTS #46
      step of "domain to ASCII", for domains that are not ASCII or have
      a label starting with "xn--", is a parameter [idna];
    - a plain JS object used as a map: its own properties as a [gmap],
      with property reads falling back to [Object.prototype];
    - [browser.storage.local], [browser.action.setIcon] and
      [browser.scripting.executeScript]: host calls that may reject,
      decided by an oracle list of faults in the state;
    - the document: a tree of elements, each with its namespace, tag,
      id, the attributes the script sets, its inline style declarations
      and its children; [document.head], [getElementById],
      [appendChild] and [remove()] as the DOM defines them on it. *)

From Stdlib Require Import String Ascii ZArith.
From stdpp Require Import base gmap strings list.

Open Scope string_scope.

(** stdpp makes [String.append] opaque to [simpl]; the proofs about
    URLs below compute with it. *)
#[local] Arguments String.append : simpl nomatch.

(* ================================================================== *)
(** ** ASCII helpers *)

Definition code (c : ascii) : N := N_of_ascii c.

Definition is_alpha (c : ascii) : bool :=
  (((65 <=? code c) && (code c <=? 90)) || ((97 <=? code c) && (code c <=? 122)))%N.

Definition is_digit (c : ascii) : bool := ((48 <=? code c) && (code c <=? 57))%N.

Definition is_alnum (c : ascii) : bool := is_alpha c || is_digit c.

Definition is_hex_digit (c : ascii) : bool :=
  is_digit c || ((65 <=? code c) && (code c <=? 70))%N
             || ((97 <=? code c) && (code c <=? 102))%N.

Definition is_oct_digit (c : ascii) : bool := ((48 <=? code c) && (code c <=? 55))%N.

(** ASCII lowercase: A-Z mapped to a-z, everything else unchanged. *)
Definition lower_char (c : ascii) : ascii :=
  if ((65 <=? code c) && (code c <=? 90))%N then ascii_of_N (code c + 32) else c.

Fixpoint lower (s : string) : string :=
  match s with
  | EmptyString => EmptyString
  | String c s' => String (lower_char c) (lower s')
  end.

Fixpoint all_chars (p : ascii -> bool) (s : string) : bool :=
  match s with
  | EmptyString => true
  | String c s' => p c && all_chars p s'
  end.

Fixpoint any_char (p : ascii -> bool) (s : string) : bool :=
  match s with
  | EmptyString => false
  | String c s' => p c || any_char p s'
  end.

Definition char_in (cs : string) (c : ascii) : bool := any_char (Ascii.eqb c) cs.

(** [split_at stop s]: the longest prefix of [s] with no character
    satisfying [stop], and the rest (starting at that character). *)
Fixpoint split_at (stop : ascii -> bool) (s : string) : string * string :=
  match s with
  | EmptyString => (EmptyString, EmptyString)
  | String c s' =>
      if stop c then (EmptyString, s)
      else let '(a, b) := split_at stop s' in (String c a, b)
  end.

(** Split on every occurrence of a separator ([String.split] of JS). *)
Fixpoint split_on (sep : ascii) (s : string) : list string :=
  match s with
  | EmptyString => [EmptyString]
  | String c s' =>
      if Ascii.eqb c sep then EmptyString :: split_on sep s'
      else match split_on sep s' with
           | [] => [String c EmptyString]
           | x :: xs => String c x :: xs
           end
  end.

Definition starts_with_char (c : ascii) (s : string) : bool :=
  match s with String c' _ => Ascii.eqb c c' | EmptyString => false end.

Fixpoint last_char (s : string) : option ascii :=
  match s with
  | EmptyString => None
  | String c EmptyString => Some c
  | String _ s' => last_char s'
  end.

Definition digit_char (d : Z) : ascii := ascii_of_N (Z.to_N (48 + d)).

(* ================================================================== *)
(** ** The WHATWG URL parser, as far as it decides [URL.hostname]

    [new URL(url)] with no base URL.  Strings are byte strings: a
    non-ASCII character of the input is given by its UTF-8 bytes.  The
    path, query and fragment are not modelled: they never make parsing
    fail and do not affect the hostname.  The one part of host parsing
    that depends on the Unicode IDNA tables, UTS #46 ToASCII on a
    domain off the standard's ASCII fast path, is a parameter [idna]. *)
Module Url.

Record url := { scheme : string; host : option string }.

(** [URL.prototype.hostname]: the serialized host, or "" for a null host. *)
Definition hostname (u : url) : string :=
  match host u with Some h => h | None => "" end.

Definition special_schemes : list string := ["ftp"; "file"; "http"; "https"; "ws"; "wss"].

Definition is_special (s : string) : bool := bool_decide (s ∈ special_schemes).

(** Leading and trailing C0 control or space are stripped; ASCII tab
    and newline are removed everywhere. *)
Definition c0_or_space (c : ascii) : bool := (code c <=? 32)%N.

Fixpoint strip_leading (s : string) : string :=
  match s with
  | String c s' => if c0_or_space c then strip_leading s' else s
  | EmptyString => EmptyString
  end.

Fixpoint rev_string (s : string) : string :=
  match s with
  | EmptyString => EmptyString
  | String c s' => (rev_string s' ++ String c EmptyString)%string
  end.

Definition trim (s : string) : string :=
  rev_string (strip_leading (rev_string (strip_leading s))).

Fixpoint remove_tab_nl (s : string) : string :=
  match s with
  | EmptyString => EmptyString
  | String c s' =>
      if ((code c =? 9) || (code c =? 10) || (code c =? 13))%N then remove_tab_nl s'
      else String c (remove_tab_nl s')
  end.

(** scheme state: scheme characters up to the first ':'. *)
Definition is_scheme_char (c : ascii) : bool := is_alnum c || char_in "+-." c.

Fixpoint scheme_rest (s : string) : option (string * string) :=
  match s with
  | EmptyString => None
  | String c s' =>
      if Ascii.eqb c ":" then Some (EmptyString, s')
      else if is_scheme_char c then
        match scheme_rest s' with
        | Some (a, b) => Some (String c a, b)
        | None => None
        end
      else None
  end.

(** scheme start state: without a base URL, anything that is not
    [ALPHA *(scheme char) ":"] is a failure. *)
Definition parse_scheme (s : string) : option (string * string) :=
  match s with
  | String c _ => if is_alpha c then scheme_rest s else None
  | EmptyString => None
  end.

(** IPv4 number parser. *)
Definition digit_value (c : ascii) : Z :=
  if is_digit c then Z.of_N (code c) - 48
  else if ((65 <=? code c) && (code c <=? 70))%N then Z.of_N (code c) - 55
  else Z.of_N (code c) - 87.

Fixpoint parse_radix (r : Z) (s : string) (acc : Z) : option Z :=
  match s with
  | EmptyString => Some acc
  | String c s' =>
      let ok := if (r =? 16)%Z then is_hex_digit c
                else if (r =? 8)%Z then is_oct_digit c else is_digit c in
      if ok then parse_radix r s' (acc * r + digit_value c) else None
  end.

Definition ipv4_number (s : string) : option Z :=
  match s with
  | EmptyString => None
  | String "0" (String x body) =>
      if Ascii.eqb x "x" || Ascii.eqb x "X" then
        (if String.eqb body "" then Some 0%Z else parse_radix 16 body 0)
      else parse_radix 8 (String x body) 0
  | _ => parse_radix 10 s 0
  end.

(** Drop a trailing empty label, as the IPv4 parser and the
    ends-in-a-number checker do. *)
Definition host_labels (h : string) : list string :=
  let parts := split_on "." h in
  match last parts with
  | Some "" => if (length parts =? 1)%nat then parts else removelast parts
  | _ => parts
  end.

Definition ends_in_number (h : string) : bool :=
  let parts := split_on "." h in
  match last parts with
  | Some "" => if (length parts =? 1)%nat then false
               else match last (removelast parts) with
                    | Some l => (negb (String.eqb l "") && all_chars is_digit l)
                                || bool_decide (is_Some (ipv4_number l))
                    | None => false
                    end
  | Some l => (negb (String.eqb l "") && all_chars is_digit l)
              || bool_decide (is_Some (ipv4_number l))
  | None => false
  end.

Definition byte_string (n : Z) : string :=
  if (100 <=? n)%Z then
    String (digit_char (n / 100)) (String (digit_char ((n / 10) mod 10))
      (String (digit_char (n mod 10)) EmptyString))
  else if (10 <=? n)%Z then
    String (digit_char (n / 10)) (String (digit_char (n mod 10)) EmptyString)
  else String (digit_char n) EmptyString.

Definition serialize_ipv4 (a : Z) : string :=
  byte_string (a / 16777216 mod 256) ++ "." ++ byte_string (a / 65536 mod 256) ++ "."
  ++ byte_string (a / 256 mod 256) ++ "." ++ byte_string (a mod 256).

Fixpoint all_numbers (ls : list string) : option (list Z) :=
  match ls with
  | [] => Some []
  | l :: ls' =>
      match ipv4_number l, all_numbers ls' with
      | Some n, Some ns => Some (n :: ns)
      | _, _ => None
      end
  end.

Definition ipv4_parse (h : string) : option string :=
  let parts := host_labels h in
  if (4 <? length parts)%nat then None else
  match all_numbers parts with
  | None => None
  | Some ns =>
      let n := length ns in
      let init := removelast ns in
      let lst := default 0%Z (last ns) in
      if existsb (fun x => 255 <? x)%Z init then None
      else if (256 ^ (5 - Z.of_nat n) <=? lst)%Z then None
      else
        let '(_, acc) := fold_left (fun '(i, acc) x => (i + 1, acc + x * 256 ^ (3 - i)))%Z
                                   init (0%Z, lst) in
        Some (serialize_ipv4 acc)
  end.

(** Forbidden host and domain code points. *)
Definition forbidden_host_cp (c : ascii) : bool :=
  bool_decide (code c ∈ [0; 9; 10; 13; 32; 35; 47; 58; 60; 62; 63; 64; 91; 92; 93; 94; 124]%N).

Definition forbidden_domain_cp (c : ascii) : bool :=
  forbidden_host_cp c || (code c <=? 31)%N || (code c =? 37)%N || (code c =? 127)%N.

Definition bracketed (h : string) : bool :=
  starts_with_char "[" h && bool_decide (last_char h = Some "]"%char).

(** percent-decode: "%" followed by two hex digits is one byte. *)
Fixpoint percent_decode (s : string) : string :=
  match s with
  | EmptyString => EmptyString
  | String c rest =>
      if Ascii.eqb c "%" then
        match rest with
        | String a (String b r) =>
            if is_hex_digit a && is_hex_digit b then
              String (ascii_of_N (Z.to_N (digit_value a * 16 + digit_value b)%Z)) (percent_decode r)
            else String c (percent_decode rest)
        | _ => String c (percent_decode rest)
        end
      else String c (percent_decode rest)
  end.

Definition hex_upper (d : Z) : ascii :=
  if (d <? 10)%Z then digit_char d else ascii_of_N (Z.to_N (55 + d)).

Definition hex_lower (d : Z) : ascii :=
  if (d <? 10)%Z then digit_char d else ascii_of_N (Z.to_N (87 + d)).

(** UTF-8 percent-encode with the C0 control percent-encode set (C0
    controls and every byte above 0x7E). *)
Fixpoint percent_encode_c0 (s : string) : string :=
  match s with
  | EmptyString => EmptyString
  | String c s' =>
      if ((code c <? 32) || (126 <? code c))%N then
        String "%" (String (hex_upper (Z.of_N (code c) / 16))
          (String (hex_upper (Z.of_N (code c) mod 16)) (percent_encode_c0 s')))
      else String c (percent_encode_c0 s')
  end.

Definition is_ascii (c : ascii) : bool := (code c <? 128)%N.

(** A label starting with an ASCII case-insensitive match for "xn--". *)
Definition xn_label (l : string) : bool := String.prefix "xn--" (lower l).

(** IPv6 parser. *)

(** Up to [k] hex digits: the value, how many were read, and the rest. *)
Fixpoint read_hex (k : nat) (s : string) (v : Z) (len : nat) : Z * nat * string :=
  match k, s with
  | S k', String c s' =>
      if is_hex_digit c then read_hex k' s' (v * 16 + digit_value c)%Z (S len) else (v, len, s)
  | _, _ => (v, len, s)
  end.

(** The decimal number of an IPv4 piece: a leading 0 followed by a
    digit, or a value above 255, is a failure. *)
Fixpoint read_dec (s : string) (piece : option Z) : option (Z * string) :=
  match s with
  | String c s' =>
      if is_digit c then
        match piece with
        | Some 0%Z => None
        | _ =>
            let p := match piece with
                     | None => digit_value c
                     | Some q => (q * 10 + digit_value c)%Z
                     end in
            if (255 <? p)%Z then None else read_dec s' (Some p)
        end
      else match piece with Some p => Some (p, s) | None => None end
  | EmptyString => match piece with Some p => Some (p, s) | None => None end
  end.

(** The IPv4 part at the end of an IPv6 address. *)
Fixpoint ipv6_ipv4 (fuel : nat) (s : string) (addr : list Z) (pi seen : nat)
    : option (list Z * nat) :=
  match fuel with
  | O => None
  | S fuel' =>
      match s with
      | EmptyString => if (seen =? 4)%nat then Some (addr, pi) else None
      | String c s' =>
          let s1 := if (0 <? seen)%nat then
                      (if Ascii.eqb c "." && (seen <? 4)%nat then Some s' else None)
                    else Some s in
          match s1 with
          | None => None
          | Some s2 =>
              match s2 with
              | String d _ =>
                  if is_digit d then
                    match read_dec s2 None with
                    | None => None
                    | Some (piece, s3) =>
                        let addr' := <[pi := (nth pi addr 0 * 256 + piece)%Z]> addr in
                        let seen' := S seen in
                        let pi' := if (seen' =? 2)%nat || (seen' =? 4)%nat then S pi else pi in
                        ipv6_ipv4 fuel' s3 addr' pi' seen'
                    end
                  else None
              | EmptyString => None
              end
          end
      end
  end.

Fixpoint ipv6_loop (fuel : nat) (s : string) (addr : list Z) (pi : nat) (compress : option nat)
    : option (list Z * nat * option nat) :=
  match fuel with
  | O => None
  | S fuel' =>
      match s with
      | EmptyString => Some (addr, pi, compress)
      | String c s' =>
          if (pi =? 8)%nat then None
          else if Ascii.eqb c ":" then
            match compress with
            | Some _ => None
            | None => ipv6_loop fuel' s' addr (S pi) (Some (S pi))
            end
          else
            let '(value, len, rest) := read_hex 4 s 0%Z 0 in
            match rest with
            | String "." _ =>
                if (len =? 0)%nat then None
                else if (6 <? pi)%nat then None
                else match ipv6_ipv4 (S (String.length s)) s addr pi 0 with
                     | Some (addr', pi') => Some (addr', pi', compress)
                     | None => None
                     end
            | String ":" rest' =>
                match rest' with
                | EmptyString => None
                | _ => ipv6_loop fuel' rest' (<[pi := value]> addr) (S pi) compress
                end
            | String _ _ => None
            | EmptyString => Some (<[pi := value]> addr, S pi, compress)
            end
      end
  end.

Definition swap (addr : list Z) (i j : nat) : list Z :=
  <[i := nth j addr 0%Z]> (<[j := nth i addr 0%Z]> addr).

Fixpoint swap_loop (swaps pidx compress : nat) (addr : list Z) : list Z :=
  match swaps with
  | O => addr
  | S sw' =>
      match pidx with
      | O => addr
      | S pidx' => swap_loop sw' pidx' compress (swap addr pidx (compress + swaps - 1))
      end
  end.

Definition ipv6_parse (s : string) : option (list Z) :=
  let start := match s with
               | String ":" r =>
                   match r with String ":" r' => Some (r', 1%nat, Some 1%nat) | _ => None end
               | _ => Some (s, 0%nat, None)
               end in
  match start with
  | None => None
  | Some (s0, pi0, comp0) =>
      match ipv6_loop (S (String.length s0)) s0 (repeat 0%Z 8) pi0 comp0 with
      | None => None
      | Some (addr, pi, Some c) => Some (swap_loop (pi - c) 7 c addr)
      | Some (addr, pi, None) => if (pi =? 8)%nat then Some addr else None
      end
  end.

(** IPv6 serializer: the first longest run of two or more zero pieces
    is compressed; pieces in lowercase hex without leading zeros. *)
Fixpoint zero_run (l : list Z) : nat :=
  match l with
  | 0%Z :: l' => S (zero_run l')
  | _ => 0%nat
  end.

Definition compress_index (addr : list Z) : option nat :=
  fst (fold_left (fun '(best, blen) i =>
                    let r := zero_run (drop i addr) in
                    if (2 <=? r)%nat && (blen <? r)%nat then (Some i, r) else (best, blen))
                 (seq 0 8) (None, 0%nat)).

Definition hex_string (n : Z) : string :=
  if (n <? 16)%Z then String (hex_lower n) EmptyString
  else if (n <? 256)%Z then String (hex_lower (n / 16)) (String (hex_lower (n mod 16)) EmptyString)
  else if (n <? 4096)%Z then
    String (hex_lower (n / 256)) (String (hex_lower (n / 16 mod 16))
      (String (hex_lower (n mod 16)) EmptyString))
  else String (hex_lower (n / 4096)) (String (hex_lower (n / 256 mod 16))
         (String (hex_lower (n / 16 mod 16)) (String (hex_lower (n mod 16)) EmptyString))).

Fixpoint ipv6_pieces (l : list Z) (i : nat) (compress : option nat) (ignore0 : bool) : string :=
  match l with
  | [] => EmptyString
  | p :: l' =>
      if ignore0 && (p =? 0)%Z then ipv6_pieces l' (S i) compress true
      else if bool_decide (compress = Some i) then
        ((if (i =? 0)%nat then "::" else ":") ++ ipv6_pieces l' (S i) compress true)%string
      else (hex_string p ++ (if (i =? 7)%nat then "" else ":") ++ ipv6_pieces l' (S i) compress false)%string
  end.

Definition serialize_ipv6 (addr : list Z) : string :=
  "[" ++ ipv6_pieces addr 0 (compress_index addr) false ++ "]".

(** A host starting with '[' must end with ']' and hold an IPv6 address. *)
Definition parse_bracketed (h : string) : option string :=
  if bracketed h then
    option_map serialize_ipv6 (ipv6_parse (substring 1 (String.length h - 2) h))
  else None.

(** opaque-host parser (non-special schemes): the case is kept. *)
Definition parse_host_opaque (h : string) : option string :=
  if starts_with_char "[" h then parse_bracketed h
  else if any_char forbidden_host_cp h then None
  else Some (percent_encode_c0 h).

Section Idna.

(** UTS #46 ToASCII with the options the URL standard passes
    (CheckHyphens false, CheckBidi and CheckJoiners true,
    UseSTD3ASCIIRules and VerifyDnsLength false, nontransitional), on a
    domain that is not ASCII or has a label starting with "xn--";
    [None] is failure. *)
Variable idna : string -> option string.

(** domain to ASCII with beStrict false: on an ASCII domain none of
    whose labels starts with "xn--" it is the ASCII lowercase. *)
Definition domain_to_ascii (d : string) : option string :=
  let result := if all_chars is_ascii d && negb (existsb xn_label (split_on "." d))
                then Some (lower d) else idna d in
  match result with
  | None => None
  | Some r =>
      if String.eqb r "" then None
      else if any_char forbidden_domain_cp r then None
      else Some r
  end.

(** host parser, not opaque (special schemes). *)
Definition parse_host_special (h : string) : option string :=
  if starts_with_char "[" h then parse_bracketed h
  else
    match domain_to_ascii (percent_decode h) with
    | None => None
    | Some d => if ends_in_number d then ipv4_parse d else Some d
    end.

(** Host and port of an authority: host ends at a ':' outside brackets. *)
Fixpoint split_hostport (inside : bool) (s : string) : string * option string :=
  match s with
  | EmptyString => (EmptyString, None)
  | String c s' =>
      if Ascii.eqb c ":" && negb inside then (EmptyString, Some s')
      else
        let inside' := if Ascii.eqb c "[" then true
                       else if Ascii.eqb c "]" then false else inside in
        let '(h, p) := split_hostport inside' s' in (String c h, p)
  end.

(** What follows the last '@' of the authority. *)
Fixpoint after_last_at (s : string) : option string :=
  match s with
  | EmptyString => None
  | String c s' =>
      match after_last_at s' with
      | Some r => Some r
      | None => if Ascii.eqb c "@" then Some s' else None
      end
  end.

Definition port_ok (p : string) : bool :=
  all_chars is_digit p &&
  match parse_radix 10 p 0 with Some n => (n <=? 65535)%Z | None => false end.

(** authority, host and port states on the authority string. *)
Definition parse_authority (special : bool) (auth : string) : option string :=
  let hp := match after_last_at auth with Some r => Some r | None => Some auth end in
  match hp with
  | None => None
  | Some hostport =>
      if bool_decide (after_last_at auth <> None) && String.eqb hostport "" then None
      else
        let '(h, port) := split_hostport false hostport in
        match port with
        | Some p =>
            if String.eqb h "" then None
            else if negb (port_ok p) then None
            else if special then parse_host_special h else parse_host_opaque h
        | None => if special then parse_host_special h else parse_host_opaque h
        end
  end.

Definition is_slash (c : ascii) : bool := Ascii.eqb c "/" || Ascii.eqb c "\".

Fixpoint drop_slashes (s : string) : string :=
  match s with
  | String c s' => if is_slash c then drop_slashes s' else s
  | EmptyString => EmptyString
  end.

Definition special_term (c : ascii) : bool := is_slash c || char_in "?#" c.
Definition nonspecial_term (c : ascii) : bool := char_in "/?#" c.

Definition windows_drive_letter (s : string) : bool :=
  match s with
  | String a (String b EmptyString) => is_alpha a && char_in ":|" b
  | _ => false
  end.

(** file state, file slash state and file host state. *)
Definition file_host (rest : string) : option string :=
  match rest with
  | String a (String b r) =>
      if is_slash a && is_slash b then
        let h := fst (split_at special_term r) in
        if windows_drive_letter h || String.eqb h "" then Some ""
        else match parse_host_special h with
             | Some "localhost" => Some ""
             | o => o
             end
      else Some ""
  | _ => Some ""
  end.

Definition parse (input : string) : option url :=
  let s := remove_tab_nl (trim input) in
  match parse_scheme s with
  | None => None
  | Some (sch0, rest) =>
      let sch := lower sch0 in
      if String.eqb sch "file" then
        match file_host rest with
        | Some h => Some {| scheme := sch; host := Some h |}
        | None => None
        end
      else if is_special sch then
        let auth := fst (split_at special_term (drop_slashes rest)) in
        match parse_authority true auth with
        | Some h => Some {| scheme := sch; host := Some h |}
        | None => None
        end
      else
        match rest with
        | String "/" (String "/" r) =>
            match parse_authority false (fst (split_at nonspecial_term r)) with
            | Some h => Some {| scheme := sch; host := Some h |}
            | None => None
            end
        | _ => Some {| scheme := sch; host := None |}
        end
  end.

End Idna.

End Url.

(* ================================================================== *)
(** ** JS values and plain objects used as maps *)

(** The values [allDomains[domain]] can take: an own boolean, or what a
    plain object inherits from [Object.prototype]. *)
Inductive jsval :=
| JUndefined
| JBool (b : bool)
| JFunction (name : string)   (** a method of [Object.prototype] *)
| JObjectPrototype.           (** [Object.prototype], read through [__proto__] *)

Definition truthy (v : jsval) : bool :=
  match v with
  | JUndefined => false
  | JBool b => b
  | JFunction _ => true
  | JObjectPrototype => true
  end.

(** [v || false] *)
Definition or_false (v : jsval) : jsval := if truthy v then v else JBool false.

(** The data properties of [Object.prototype] a string key can reach. *)
Definition object_prototype_methods : list string :=
  ["constructor"; "__defineGetter__"; "__defineSetter__"; "hasOwnProperty";
   "__lookupGetter__"; "__lookupSetter__"; "isPrototypeOf";
   "propertyIsEnumerable"; "toString"; "valueOf"; "toLocaleString"].

Definition proto_get (k : string) : jsval :=
  if String.eqb k "__proto__" then JObjectPrototype
  else if bool_decide (k ∈ object_prototype_methods) then
    (if String.eqb k "constructor" then JFunction "Object" else JFunction k)
  else JUndefined.

(** [obj[k]] on a plain object whose own properties are [o]. *)
Definition obj_get (o : gmap string bool) (k : string) : jsval :=
  match o !! k with
  | Some b => JBool b
  | None => proto_get k
  end.

(** [obj[k] = b]: the inherited [__proto__] setter ignores a
    non-object value; any other key becomes an own property. *)
Definition obj_set (o : gmap string bool) (k : string) (b : bool) : gmap string bool :=
  if String.eqb k "__proto__" then o else <[k := b]> o.

(* ================================================================== *)
(** ** The background context: state and effects *)

Definition SETTINGS_KEY : string := "toothlit_settings".

(** [{ source: 'toothlit-background', action: ... }] *)
Record message := { msg_source : string; msg_action : string }.

(** The icon [path] object passed to [browser.action.setIcon]. *)
Definition icon_path : Type := list (string * string).

Record tab := { tab_id : Z; tab_url : option string }.

(** The steps of the scripts' own functions, in call order. *)
Inductive step :=
| SResolve (url : string)
| SGetState (domain : string)
| SSetState (domain : string) (enabled : bool)
| SUpdateIcon (tabId : Z) (enabled : bool)
| SNotify (tabId : Z) (isDark : bool).

Record bg_state := {
  store : option (gmap string bool);  (** [storage.local] entry under [SETTINGS_KEY] *)
  icons : gmap Z icon_path;            (** icon set per tab *)
  posted : list (Z * message);         (** messages posted into each tab's page *)
  logs : list string;                  (** [console.error] output *)
  faults : list bool;                  (** does the next host call reject? *)
  steps : list step
}.

Inductive outcome (A : Type) := Ret (a : A) | Throw (e : string).
Arguments Ret {A} a.
Arguments Throw {A} e.

(** An async function: it returns a value or rejects, threading the state. *)
Definition M (A : Type) : Type := bg_state -> outcome A * bg_state.

Definition ret {A} (a : A) : M A := fun st => (Ret a, st).
Definition bind {A B} (m : M A) (k : A -> M B) : M B :=
  fun st => match m st with
            | (Ret a, st') => k a st'
            | (Throw e, st') => (Throw e, st')
            end.
Definition throw {A} (e : string) : M A := fun st => (Throw e, st).

(** [try { m } catch (e) { h(e) }] *)
Definition try_catch {A} (m : M A) (h : string -> M A) : M A :=
  fun st => match m st with
            | (Throw e, st') => h e st'
            | r => r
            end.

Notation "'let*' x ':=' m 'in' k" := (bind m (fun x => k))
  (at level 200, x name, m at level 100, k at level 200).
Notation "m '>>>' k" := (bind m (fun _ => k)) (at level 100, right associativity).

Definition modify (f : bg_state -> bg_state) : M unit := fun st => (Ret tt, f st).

Definition set_store s st :=
  {| store := s; icons := icons st; posted := posted st; logs := logs st;
     faults := faults st; steps := steps st |}.
Definition set_icons i st :=
  {| store := store st; icons := i; posted := posted st; logs := logs st;
     faults := faults st; steps := steps st |}.
Definition set_posted p st :=
  {| store := store st; icons := icons st; posted := p; logs := logs st;
     faults := faults st; steps := steps st |}.
Definition set_logs l st :=
  {| store := store st; icons := icons st; posted := posted st; logs := l;
     faults := faults st; steps := steps st |}.
Definition set_faults f st :=
  {| store := store st; icons := icons st; posted := posted st; logs := logs st;
     faults := f; steps := steps st |}.
Definition set_steps s st :=
  {| store := store st; icons := icons st; posted := posted st; logs := logs st;
     faults := faults st; steps := s |}.

Definition console_error (msg : string) : M unit :=
  modify (fun st => set_logs (logs st ++ [msg]) st).

Definition record (s : step) : M unit :=
  modify (fun st => set_steps (steps st ++ [s]) st).

(** Each host call consults the fault oracle: [true] means it rejects. *)
Definition host_call {A} (name : string) (k : M A) : M A :=
  fun st => match faults st with
            | true :: fs => (Throw name, set_faults fs st)
            | false :: fs => k (set_faults fs st)
            | [] => k st
            end.

(** [(await browser.storage.local.get(SETTINGS_KEY))[SETTINGS_KEY]] *)
Definition storage_get : M (option (gmap string bool)) :=
  host_call "storage.local.get" (fun st => (Ret (store st), st)).

(** [await browser.storage.local.set({ [SETTINGS_KEY]: m })] *)
Definition storage_set (m : gmap string bool) : M unit :=
  host_call "storage.local.set" (modify (set_store (Some m))).

(** [await browser.action.setIcon({ tabId, path })] *)
Definition set_icon (tabId : Z) (path : icon_path) : M unit :=
  host_call "action.setIcon" (modify (fun st => set_icons (<[tabId := path]> (icons st)) st)).

(** [await browser.scripting.executeScript(...)]: the injected function
    posts the message into the tab's page. *)
Definition execute_script (tabId : Z) (isDark : bool) : M unit :=
  host_call "scripting.executeScript"
    (modify (fun st =>
       set_posted (posted st ++ [(tabId, {| msg_source := "toothlit-background";
                                            msg_action := if isDark then "enableDarkMode"
                                                          else "disableDarkMode" |})]) st)).

(* ================================================================== *)
(** ** background.js *)

(** [const path = isEnabled ? {...on...} : {...off...}] *)
Definition icon_path_for (isEnabled : bool) : icon_path :=
  if isEnabled then [("16", "icons/icon-on-16.png"); ("32", "icons/icon-on-32.png")]
  else [("16", "icons/icon-off-16.png"); ("32", "icons/icon-off-32.png")].

Definition updateIcon (tabId : Z) (isEnabled : bool) : M unit :=
  record (SUpdateIcon tabId isEnabled) >>>
  let path := icon_path_for isEnabled in
  try_catch (set_icon tabId path)
            (fun _ => console_error "ToothLit: Failed to set icon for tab").

Definition getDomainState (domain : string) : M jsval :=
  record (SGetState domain) >>>
  try_catch
    (let* settings := storage_get in
     let allDomains := default ∅ settings in
     ret (or_false (obj_get allDomains domain)))
    (fun _ => console_error "ToothLit: Error getting domain state" >>> ret (JBool false)).

Definition setDomainState (domain : string) (isEnabled : bool) : M unit :=
  record (SSetState domain isEnabled) >>>
  try_catch
    (let* settings := storage_get in
     let allDomains := default ∅ settings in
     storage_set (obj_set allDomains domain isEnabled))
    (fun _ => console_error "ToothLit: Error setting domain state").

(** The last statement of the click listener: [executeScript] inside
    its [try]/[catch]. *)
Definition notifyTab (tabId : Z) (newState : bool) : M unit :=
  record (SNotify tabId newState) >>>
  try_catch (execute_script tabId newState)
            (fun _ => console_error "ToothLit: Could not communicate with content script").

(** [if (!domain) return;]: null and the empty string both return. *)
Definition falsy_domain (d : option string) : bool :=
  match d with None => true | Some s => String.eqb s "" end.

Section Handlers.

(** UTS #46 ToASCII, as [new URL] uses it (see [Url.domain_to_ascii]). *)
Variable idna : string -> option string.

Definition getDomainFromUrl (url : string) : M (option string) :=
  record (SResolve url) >>>
  match Url.parse idna url with
  | Some u => ret (Some (Url.hostname u))
  | None => console_error ("ToothLit: Invalid URL - " ++ url) >>> ret None
  end.

(** The [browser.action.onClicked] listener.  An absent [tab.url]
    reaches [new URL] as the string "undefined". *)
Definition onClicked (t : tab) : M unit :=
  let* domain := getDomainFromUrl (default "undefined" (tab_url t)) in
  match domain with
  | None => ret tt
  | Some d =>
      if String.eqb d "" then ret tt else
      let* currentState := getDomainState d in
      let newState := negb (truthy currentState) in
      setDomainState d newState >>>
      updateIcon (tab_id t) newState >>>
      notifyTab (tab_id t) newState
  end.

(** The [browser.tabs.onUpdated] listener. *)
Definition onUpdated (tabId : Z) (status : option string) (t : tab) : M unit :=
  match status, tab_url t with
  | Some "complete", Some url =>
      if String.eqb url "" then ret tt else
      let* domain := getDomainFromUrl url in
      match domain with
      | Some d => if String.eqb d "" then ret tt else
                  let* isEnabled := getDomainState d in
                  updateIcon tabId (truthy isEnabled)
      | None => ret tt
      end
  | _, _ => ret tt
  end.

End Handlers.

Definition init_bg : bg_state :=
  {| store := None; icons := ∅; posted := []; logs := []; faults := []; steps := [] |}.

(** An IDNA implementation that fails on every domain it is given: the
    concrete runs below use domains on the ASCII fast path, where it is
    never called, or show what a failure of ToASCII does. *)
Definition idna_reject_all : string -> option string := fun _ => None.

(* ================================================================== *)
(** ** contentScript.js: the page context *)

Definition FALLBACK_STYLE_ID : string := "toothlit-dark-mode-fallback-css".

(** The namespace of an element.  HTML, SVG and MathML elements have
    an inline [style] declaration block; other elements have none, and
    [element.style] is then [undefined]. *)
Inductive namespace := NsHTML | NsSVG | NsMathML | NsOther.

(** A CSS declaration: property name, then value and priority. *)
Definition declaration : Type := string * (string * string).

(** An element, as far as the script reads or writes it: its inline
    style declarations in order, whether it has a [style] attribute,
    and its element children in order. *)
#[warnings="-register-all"]
Inductive element := Element {
  el_ns : namespace;
  el_tag : string;
  el_id : string;
  el_rel : string;
  el_type : string;
  el_href : string;
  el_style : list declaration;
  el_style_attr : bool;
  el_children : list element
}.

(** A document: [document.documentElement], which may be null. *)
Record page := { document_element : option element }.

Definition has_style (e : element) : bool :=
  match el_ns e with NsOther => false | _ => true end.

Definition with_style (e : element) (ds : list declaration) : element :=
  Element (el_ns e) (el_tag e) (el_id e) (el_rel e) (el_type e) (el_href e) ds true (el_children e).

Definition with_children (e : element) (cs : list element) : element :=
  Element (el_ns e) (el_tag e) (el_id e) (el_rel e) (el_type e) (el_href e)
          (el_style e) (el_style_attr e) cs.

(** The elements of a subtree in tree order (preorder). *)
Fixpoint tree_order (e : element) : list element :=
  e :: flat_map tree_order (el_children e).

Definition page_elements (p : page) : list element :=
  match document_element p with Some r => tree_order r | None => [] end.

(** [document.getElementById(id)]: the first element in tree order. *)
Definition getElementById (p : page) (id : string) : option element :=
  find (fun e => String.eqb (el_id e) id) (page_elements p).

Definition is_html (e : element) (name : string) : bool :=
  match el_ns e with NsHTML => String.eqb (el_tag e) name | _ => false end.

(** [document.head]: the first [head] child of the document element
    when that is an HTML [html] element, else null. *)
Definition document_head (p : page) : option element :=
  match document_element p with
  | Some r => if is_html r "html" then find (fun c => is_html c "head") (el_children r) else None
  | None => None
  end.

(** The declaration of a property in a declaration block. *)
Definition decl_lookup (ds : list declaration) (name : string) : option (string * string) :=
  match find (fun d => String.eqb d.1 name) ds with Some d => Some d.2 | None => None end.

(** set a CSS declaration: the existing declaration is updated in
    place, otherwise one is appended. *)
Fixpoint decl_set (ds : list declaration) (name : string) (v : string * string) : list declaration :=
  match ds with
  | [] => [(name, v)]
  | d :: ds' => if String.eqb d.1 name then (name, v) :: ds' else d :: decl_set ds' name v
  end.

Definition decl_remove (ds : list declaration) (name : string) : list declaration :=
  List.filter (fun d => negb (String.eqb d.1 name)) ds.

(** [style.setProperty(name, value, priority)]: the declaration is set
    and the [style] attribute updated. *)
Definition setProperty (e : element) (name value priority : string) : element :=
  with_style e (decl_set (el_style e) name (value, priority)).

(** [style.removeProperty(name)]: when the property is declared it is
    removed and the [style] attribute updated; otherwise nothing
    changes. *)
Definition removeProperty (e : element) (name : string) : element :=
  match decl_lookup (el_style e) name with
  | Some _ => with_style e (decl_remove (el_style e) name)
  | None => e
  end.

(** Append [x] to the children of the first [head] child. *)
Fixpoint append_first_head (cs : list element) (x : element) : list element :=
  match cs with
  | [] => []
  | c :: cs' =>
      if is_html c "head" then with_children c (el_children c ++ [x]) :: cs'
      else c :: append_first_head cs' x
  end.

(** [document.head.appendChild(x)], when [document.head] is not null. *)
Definition appendToHead (p : page) (x : element) : page :=
  match document_element p with
  | Some r => {| document_element := Some (with_children r (append_first_head (el_children r) x)) |}
  | None => p
  end.

(** Removal of the first element with [id] in tree order, with its
    subtree, from the children of an element: [None] when no child
    subtree has one. *)
Definition rm_list (rm : element -> option (option element)) : list element -> option (list element) :=
  fix go (l : list element) : option (list element) :=
    match l with
    | [] => None
    | c :: l' =>
        match rm c with
        | Some None => Some l'
        | Some (Some c') => Some (c' :: l')
        | None => option_map (cons c) (go l')
        end
    end.

(** Removal from a subtree: [None] when the subtree has no element with
    [id], [Some None] when its root is the first one (the whole subtree
    goes), [Some (Some e')] when it is removed below the root. *)
Fixpoint remove_first (id : string) (e : element) : option (option element) :=
  if String.eqb (el_id e) id then Some None
  else match rm_list (remove_first id) (el_children e) with
       | Some cs => Some (Some (with_children e cs))
       | None => None
       end.

(** [element.remove()] on the element [getElementById(id)] returns:
    the first element with [id] in tree order leaves the tree with its
    descendants; when it is the document element, the document is left
    without one. *)
Definition remove_by_id (p : page) (id : string) : page :=
  match document_element p with
  | Some r =>
      match remove_first id r with
      | Some o => {| document_element := o |}
      | None => p
      end
  | None => p
  end.

Definition dark_css_url : string := "dark-mode.css".

(** The element [document.createElement('link')] returns, with the four
    properties the script sets. *)
Definition fallback_link : element :=
  {| el_ns := NsHTML; el_tag := "link"; el_id := FALLBACK_STYLE_ID; el_rel := "stylesheet";
     el_type := "text/css"; el_href := dark_css_url; el_style := []; el_style_attr := false;
     el_children := [] |}.

(** [enableDarkMode]: the page it leaves, and whether it returned or
    threw.  [document.documentElement.style.setProperty] throws a
    TypeError when there is no document element or it has no [style];
    [document.head.appendChild] throws one when [document.head] is null,
    after the property has been set. *)
Definition enableDarkMode (p : page) : page * outcome unit :=
  match document_element p with
  | None => (p, Throw "TypeError")
  | Some r =>
      if negb (has_style r) then (p, Throw "TypeError") else
      let p1 := {| document_element := Some (setProperty r "color-scheme" "dark" "important") |} in
      match getElementById p1 FALLBACK_STYLE_ID with
      | Some _ => (p1, Ret tt)
      | None =>
          match document_head p1 with
          | None => (p1, Throw "TypeError")
          | Some _ => (appendToHead p1 fallback_link, Ret tt)
          end
      end
  end.

Definition disableDarkMode (p : page) : page * outcome unit :=
  match document_element p with
  | None => (p, Throw "TypeError")
  | Some r =>
      if negb (has_style r) then (p, Throw "TypeError") else
      let p1 := {| document_element := Some (removeProperty r "color-scheme") |} in
      match getElementById p1 FALLBACK_STYLE_ID with
      | Some _ => (remove_by_id p1 FALLBACK_STYLE_ID, Ret tt)
      | None => (p1, Ret tt)
      end
  end.

(** [event.data]: a falsy value, or a value whose [source] and [action]
    properties are strings ([Some]) or anything else ([None]). *)
Inductive msg_data :=
| DFalsy
| DValue (source : option string) (action : option string).

Record message_event := {
  ev_source_is_window : bool;   (** [event.source === window] *)
  ev_data : msg_data
}.

(** [event.data.source === 'toothlit-background'] on a truthy [event.data]. *)
Definition has_marker (d : msg_data) : bool :=
  match d with
  | DValue src _ => bool_decide (src = Some "toothlit-background")
  | DFalsy => false
  end.

(** The [window] "message" listener.  An exception thrown by the
    listener is reported and ends it; the page keeps what was done. *)
Definition onMessage (ev : message_event) (p : page) : page :=
  match ev_data ev with
  | DValue src act =>
      if ev_source_is_window ev && bool_decide (src = Some "toothlit-background") then
        if bool_decide (act = Some "enableDarkMode") then fst (enableDarkMode p)
        else if bool_decide (act = Some "disableDarkMode") then fst (disableDarkMode p)
        else p
      else p
  | DFalsy => p
  end.

(** The initial storage check, on [domain = window.location.hostname]:
    the read either resolves with the entry under [SETTINGS_KEY] or
    rejects (caught and logged).  An exception thrown by
    [enableDarkMode] rejects the promise [then] returns, and [catch]
    logs it. *)
Definition initialCheck (domain : string) (read : outcome (option (gmap string bool)))
    (p : page) : page :=
  match read with
  | Ret settings =>
      let allDomains := default ∅ settings in
      if truthy (obj_get allDomains domain) then fst (enableDarkMode p) else p
  | Throw _ => p
  end.

(** Counting the elements with a given id, and the two states. *)
Definition count_id (p : page) (id : string) : nat :=
  length (List.filter (fun e => String.eqb (el_id e) id) (page_elements p)).

(** The same count in a subtree, and in a list of subtrees. *)
Definition count_tree (id : string) (e : element) : nat :=
  length (List.filter (fun x => String.eqb (el_id x) id) (tree_order e)).

Definition count_forest (id : string) (l : list element) : nat :=
  length (List.filter (fun x => String.eqb (el_id x) id) (flat_map tree_order l)).

(** A declaration of the document element's inline style. *)
Definition root_decl (p : page) (name : string) : option (string * string) :=
  match document_element p with Some r => decl_lookup (el_style r) name | None => None end.

Definition is_dark (p : page) : Prop :=
  root_decl p "color-scheme" = Some ("dark", "important") /\ count_id p FALLBACK_STYLE_ID = 1%nat.

Definition is_light (p : page) : Prop :=
  root_decl p "color-scheme" = None /\ count_id p FALLBACK_STYLE_ID = 0%nat.

Definition html_element (tag : string) (cs : list element) : element :=
  {| el_ns := NsHTML; el_tag := tag; el_id := ""; el_rel := ""; el_type := ""; el_href := "";
     el_style := []; el_style_attr := false; el_children := cs |}.

(** [<html><head></head><body></body></html>] *)
Definition empty_page : page :=
  {| document_element := Some (html_element "html" [html_element "head" []; html_element "body" []]) |}.

(** An SVG document: its document element is an SVG [svg] element, and
    [document.head] is null. *)
Definition svg_page : page :=
  {| document_element := Some {| el_ns := NsSVG; el_tag := "svg"; el_id := ""; el_rel := "";
                                 el_type := ""; el_href := ""; el_style := [];
                                 el_style_attr := false; el_children := [] |} |}.

(** An HTML page with two elements carrying the reserved id: one in
    [head], one in [body]. *)
Definition two_fallback_page : page :=
  {| document_element := Some (html_element "html"
       [html_element "head" [fallback_link];
        html_element "body"
          [{| el_ns := NsHTML; el_tag := "div"; el_id := FALLBACK_STYLE_ID; el_rel := "";
              el_type := ""; el_href := ""; el_style := []; el_style_attr := false;
              el_children := [] |}]]) |}.

(** An HTML page whose document element has the inline declaration
    [color: red]. *)
Definition styled_page : page :=
  {| document_element := Some {| el_ns := NsHTML; el_tag := "html"; el_id := ""; el_rel := "";
                                 el_type := ""; el_href := ""; el_style := [("color", ("red", ""))];
                                 el_style_attr := true;
                                 el_children := [html_element "head" []; html_element "body" []] |} |}.

(** The same page with the document element's [style] attribute present. *)
Definition with_style_attr (p : page) : page :=
  match document_element p with
  | Some r => {| document_element := Some (with_style r (el_style r)) |}
  | None => p
  end.

Definition background_message (isDark : bool) : message :=
  {| msg_source := "toothlit-background";
     msg_action := if isDark then "enableDarkMode" else "disableDarkMode" |}.

(** The next host call succeeds and leaves the fault oracle at [fs']. *)
Definition succeeds (fs fs' : list bool) : Prop :=
  fs = false :: fs' \/ (fs = [] /\ fs' = []).

(** [setDomainState] followed by [getDomainState], as two awaited calls. *)
Definition set_then_get (d : string) (b : bool) : M jsval :=
  setDomainState d b >>> getDomainState d.

Definition news_tab : tab := {| tab_id := 7; tab_url := Some "https://news.example/a" |}.




(** The data [window.postMessage] delivers for a background message: a
    truthy object whose [source] and [action] properties are strings. *)
Definition message_data (m : message) : msg_data :=
  DValue (Some (msg_source m)) (Some (msg_action m)).

(* ================================================================== *)

(** ** Evaluations on concrete inputs *)

Example url_ex1 : option_map Url.hostname (Url.parse idna_reject_all "https://Example.com:443/path") = Some "example.com".
Proof. reflexivity. Qed.
Example url_ex2 : Url.parse idna_reject_all "not a url" = None.
Proof. reflexivity. Qed.
Example url_ex3 : option_map Url.hostname (Url.parse idna_reject_all "about:blank") = Some "".
Proof. reflexivity. Qed.
Example url_ex4 : option_map Url.hostname (Url.parse idna_reject_all "foo://Example.com/") = Some "Example.com".
Proof. reflexivity. Qed.
Example url_ex5 : option_map Url.hostname (Url.parse idna_reject_all "http://0x7f.1/") = Some "127.0.0.1".
Proof. reflexivity. Qed.
Example url_ex6 : Url.parse idna_reject_all "http://" = None.
Proof. reflexivity. Qed.
Example url_ex7 : option_map Url.hostname (Url.parse idna_reject_all "http://u:p@A.b:8080") = Some "a.b".
Proof. reflexivity. Qed.
Example url_ex8 : option_map Url.hostname (Url.parse idna_reject_all "http://%41.com/") = Some "a.com".
Proof. reflexivity. Qed.
Example url_ex9 : option_map Url.hostname (Url.parse idna_reject_all "http://[::1]/") = Some "[::1]".
Proof. reflexivity. Qed.
Example url_ex10 : Url.parse idna_reject_all "http://[xyz]/" = None.
Proof. reflexivity. Qed.
Example url_ex11 : Url.parse idna_reject_all "http://xn--a.com/" = None.
Proof. reflexivity. Qed.

Example click_scenario :
  let st := snd (onClicked idna_reject_all {| tab_id := 1; tab_url := Some "https://news.example/a" |} init_bg) in
  store st = Some {[ "news.example" := true ]} /\
  icons st !! 1%Z = Some [("16", "icons/icon-on-16.png"); ("32", "icons/icon-on-32.png")] /\
  posted st = [(1%Z, {| msg_source := "toothlit-background"; msg_action := "enableDarkMode" |})].
Proof. vm_compute. repeat split; reflexivity. Qed.

(* ================================================================== *)
(** ** Page styler lemmas *)

Section PageLemmas.

Lemma find_None_filter {A} (f : A -> bool) (l : list A) :
  find f l = None -> List.filter f l = [].
Proof.
  induction l as [|x l IH]; cbn; [done|].
  destruct (f x) eqn:E; [discriminate|]. exact IH.
Qed.

Lemma filter_nil_find {A} (f : A -> bool) (l : list A) :
  List.filter f l = [] -> find f l = None.
Proof.
  induction l as [|y l IH]; cbn; [done|].
  destruct (f y) eqn:E; [discriminate|]. exact IH.
Qed.

(** Induction on elements through their children. *)
Lemma element_nested_ind (P : element -> Prop) :
  (forall e, Forall P (el_children e) -> P e) -> forall e, P e.
Proof.
  intros H. fix IH 1. intros e. apply H.
  destruct e as [ns tag id rel ty href st sa ch]; cbn.
  revert ch. fix IHl 1. intros [|c ch]; constructor; [apply IH | apply IHl].
Qed.

Lemma count_tree_eq id e :
  count_tree id e = ((if String.eqb (el_id e) id then 1 else 0) + count_forest id (el_children e))%nat.
Proof.
  destruct e as [ns tag i rel ty href st sa ch]; unfold count_tree, count_forest; cbn.
  destruct (String.eqb i id); reflexivity.
Qed.

Lemma count_forest_cons id c l :
  count_forest id (c :: l) = (count_tree id c + count_forest id l)%nat.
Proof. unfold count_forest, count_tree. cbn [flat_map]. by rewrite List.filter_app, length_app. Qed.

Lemma count_forest_app id l1 l2 :
  count_forest id (l1 ++ l2) = (count_forest id l1 + count_forest id l2)%nat.
Proof. unfold count_forest. by rewrite flat_map_app, List.filter_app, length_app. Qed.

Lemma count_id_root p r id : document_element p = Some r -> count_id p id = count_tree id r.
Proof. intros H. unfold count_id, page_elements. by rewrite H. Qed.

Lemma count_id_some r id : count_id {| document_element := Some r |} id = count_tree id r.
Proof. reflexivity. Qed.

Lemma count_id_no_root p id : document_element p = None -> count_id p id = 0%nat.
Proof. intros H. unfold count_id, page_elements. by rewrite H. Qed.

Lemma getElementById_None_iff p id : getElementById p id = None <-> count_id p id = 0%nat.
Proof.
  unfold getElementById, count_id. split.
  - intros H%find_None_filter. by rewrite H.
  - intros H. apply filter_nil_find. by apply nil_length_inv.
Qed.

Lemma with_children_fields e cs :
  el_id (with_children e cs) = el_id e /\ el_children (with_children e cs) = cs /\
  el_style (with_children e cs) = el_style e /\ el_ns (with_children e cs) = el_ns e /\
  el_tag (with_children e cs) = el_tag e.
Proof. destruct e; repeat split. Qed.

Lemma with_children_children e : with_children e (el_children e) = e.
Proof. by destruct e. Qed.

Lemma with_children_twice e cs cs' : with_children (with_children e cs) cs' = with_children e cs'.
Proof. by destruct e. Qed.

Lemma count_tree_with_style id e ds : count_tree id (with_style e ds) = count_tree id e.
Proof. rewrite !count_tree_eq. by destruct e. Qed.

Lemma count_tree_setProperty id e n v pr : count_tree id (setProperty e n v pr) = count_tree id e.
Proof. apply count_tree_with_style. Qed.

Lemma count_tree_removeProperty id e n : count_tree id (removeProperty e n) = count_tree id e.
Proof. unfold removeProperty. destruct (decl_lookup _ _); [apply count_tree_with_style | done]. Qed.

Lemma count_tree_with_children id e cs :
  count_tree id (with_children e cs) = ((if String.eqb (el_id e) id then 1 else 0) + count_forest id cs)%nat.
Proof. rewrite count_tree_eq. by destruct e. Qed.

(** Declaration blocks. *)
Lemma decl_lookup_set_eq ds n v : decl_lookup (decl_set ds n v) n = Some v.
Proof.
  unfold decl_lookup. induction ds as [|d ds IH]; cbn; [by rewrite String.eqb_refl|].
  destruct (String.eqb d.1 n) eqn:E; cbn; [by rewrite String.eqb_refl|]. by rewrite E.
Qed.

Lemma decl_lookup_set_ne ds n v m : m <> n -> decl_lookup (decl_set ds n v) m = decl_lookup ds m.
Proof.
  intros Hmn. unfold decl_lookup. induction ds as [|d ds IH]; cbn.
  - by rewrite (proj2 (String.eqb_neq n m)) by congruence.
  - destruct (String.eqb d.1 n) eqn:E; cbn.
    + apply String.eqb_eq in E. rewrite (proj2 (String.eqb_neq n m)) by congruence.
      by rewrite (proj2 (String.eqb_neq d.1 m)) by congruence.
    + destruct (String.eqb d.1 m); [done|]. exact IH.
Qed.

Lemma decl_lookup_remove_eq ds n : decl_lookup (decl_remove ds n) n = None.
Proof.
  unfold decl_lookup, decl_remove. induction ds as [|d ds IH]; cbn; [done|].
  destruct (String.eqb d.1 n) eqn:E; cbn; [exact IH|]. by rewrite E.
Qed.

Lemma decl_lookup_remove_ne ds n m : m <> n -> decl_lookup (decl_remove ds n) m = decl_lookup ds m.
Proof.
  intros Hmn. unfold decl_lookup, decl_remove. induction ds as [|d ds IH]; cbn; [done|].
  destruct (String.eqb d.1 n) eqn:E; cbn.
  - apply String.eqb_eq in E. by rewrite (proj2 (String.eqb_neq d.1 m)) by congruence.
  - destruct (String.eqb d.1 m); [done|]. exact IH.
Qed.

Lemma decl_set_idem ds n v : decl_set (decl_set ds n v) n v = decl_set ds n v.
Proof.
  induction ds as [|d ds IH]; cbn; [by rewrite String.eqb_refl|].
  destruct (String.eqb d.1 n) eqn:E; cbn; [by rewrite String.eqb_refl|]. by rewrite E, IH.
Qed.

Lemma decl_remove_set ds n v : decl_remove (decl_set ds n v) n = decl_remove ds n.
Proof.
  unfold decl_remove. induction ds as [|d ds IH]; cbn; [by rewrite String.eqb_refl|].
  destruct (String.eqb d.1 n) eqn:E; cbn; rewrite ?String.eqb_refl, ?E; cbn; [done|]. by rewrite IH.
Qed.

Lemma decl_remove_absent ds n : decl_lookup ds n = None -> decl_remove ds n = ds.
Proof.
  unfold decl_lookup, decl_remove. induction ds as [|d ds IH]; cbn; [done|].
  destruct (String.eqb d.1 n) eqn:E; cbn; [discriminate|]. intros H. by rewrite IH.
Qed.

Lemma setProperty_idem e n v pr : setProperty (setProperty e n v pr) n v pr = setProperty e n v pr.
Proof. destruct e. unfold setProperty, with_style; cbn. by rewrite decl_set_idem. Qed.

Lemma setProperty_with_children_setProperty e cs n v pr :
  setProperty (with_children (setProperty e n v pr) cs) n v pr = with_children (setProperty e n v pr) cs.
Proof. destruct e. unfold setProperty, with_style, with_children; cbn. by rewrite decl_set_idem. Qed.

Lemma removeProperty_absent e n : decl_lookup (el_style e) n = None -> removeProperty e n = e.
Proof. intros H. unfold removeProperty. by rewrite H. Qed.

Lemma removeProperty_lookup_eq e n : decl_lookup (el_style (removeProperty e n)) n = None.
Proof.
  unfold removeProperty. destruct (decl_lookup (el_style e) n) eqn:E; [|exact E].
  destruct e; apply decl_lookup_remove_eq.
Qed.

Lemma removeProperty_lookup_ne e n m :
  m <> n -> decl_lookup (el_style (removeProperty e n)) m = decl_lookup (el_style e) m.
Proof.
  intros H. unfold removeProperty. destruct (decl_lookup (el_style e) n); [|done].
  destruct e; by apply decl_lookup_remove_ne.
Qed.

Lemma setProperty_fields e n v pr :
  has_style (setProperty e n v pr) = has_style e /\
  el_children (setProperty e n v pr) = el_children e /\
  el_style (setProperty e n v pr) = decl_set (el_style e) n (v, pr).
Proof. by destruct e. Qed.

Lemma removeProperty_has_style e n : has_style (removeProperty e n) = has_style e.
Proof. unfold removeProperty. destruct (decl_lookup _ _); [by destruct e | done]. Qed.

(** [document.head] *)
Lemma document_head_root p :
  document_head p <> None ->
  exists r, document_element p = Some r /\ is_html r "html" = true /\
            find (fun c => is_html c "head") (el_children r) <> None.
Proof.
  unfold document_head. destruct (document_element p) as [r|]; [|done].
  destruct (is_html r "html") eqn:E; [|done]. intros H. by exists r.
Qed.

Lemma is_html_has_style e name : is_html e name = true -> has_style e = true.
Proof. unfold is_html, has_style. by destruct (el_ns e). Qed.

Lemma document_head_setProperty r n v pr :
  document_head {| document_element := Some (setProperty r n v pr) |}
  = document_head {| document_element := Some r |}.
Proof. by destruct r. Qed.

Lemma count_forest_append_first_head id cs x :
  find (fun c => is_html c "head") cs <> None ->
  count_forest id (append_first_head cs x) = (count_forest id cs + count_tree id x)%nat.
Proof.
  induction cs as [|c cs IH]; [cbn; done|]. cbn [append_first_head List.find].
  destruct (is_html c "head") eqn:E.
  - intros _. rewrite !count_forest_cons, count_tree_with_children, count_forest_app,
      !count_forest_cons, (count_tree_eq id c).
    change (count_forest id []) with 0%nat. lia.
  - intros H. rewrite !count_forest_cons, IH by exact H. lia.
Qed.

Lemma count_appendToHead p id x :
  document_head p <> None -> count_id (appendToHead p x) id = (count_id p id + count_tree id x)%nat.
Proof.
  intros H. destruct (document_head_root p H) as (r & Hr & _ & Hh).
  unfold appendToHead. rewrite Hr.
  rewrite count_id_some, (count_id_root p r id Hr).
  rewrite count_tree_with_children, count_forest_append_first_head by exact Hh.
  rewrite (count_tree_eq id r). lia.
Qed.

Lemma root_decl_appendToHead r x n :
  root_decl (appendToHead {| document_element := Some r |} x) n
  = root_decl {| document_element := Some r |} n.
Proof. by destruct r. Qed.

Lemma count_tree_fallback_link : count_tree FALLBACK_STYLE_ID fallback_link = 1%nat.
Proof. reflexivity. Qed.

(** The three ways [enableDarkMode] runs on a document element with a
    [style]. *)
Lemma enableDarkMode_spec p r (Hr : document_element p = Some r) (Hs : has_style r = true) :
  let p1 := {| document_element := Some (setProperty r "color-scheme" "dark" "important") |} in
  ((1 <= count_id p FALLBACK_STYLE_ID)%nat -> enableDarkMode p = (p1, Ret tt)) /\
  (count_id p FALLBACK_STYLE_ID = 0%nat -> document_head p = None ->
   enableDarkMode p = (p1, Throw "TypeError")) /\
  (count_id p FALLBACK_STYLE_ID = 0%nat -> document_head p <> None ->
   enableDarkMode p = (appendToHead p1 fallback_link, Ret tt)).
Proof.
  intros p1.
  assert (Hc : count_id p1 FALLBACK_STYLE_ID = count_id p FALLBACK_STYLE_ID).
  { rewrite (count_id_root p r _ Hr). apply count_tree_setProperty. }
  assert (Hh : document_head p1 = document_head p).
  { subst p1. rewrite document_head_setProperty. destruct p as [[r'|]]; cbn in Hr; congruence. }
  unfold enableDarkMode. rewrite Hr, Hs. cbn [negb]. fold p1.
  repeat split.
  - intros H1. destruct (getElementById p1 _) eqn:E; [done|].
    apply getElementById_None_iff in E. lia.
  - intros H0 Hn. rewrite (proj2 (getElementById_None_iff _ _)) by lia. by rewrite Hh, Hn.
  - intros H0 Hn. rewrite (proj2 (getElementById_None_iff _ _)) by lia.
    rewrite Hh. by destruct (document_head p).
Qed.

(** The two ways [disableDarkMode] runs on a document element with a
    [style]. *)
Lemma disableDarkMode_spec p r (Hr : document_element p = Some r) (Hs : has_style r = true) :
  let p1 := {| document_element := Some (removeProperty r "color-scheme") |} in
  (count_id p FALLBACK_STYLE_ID = 0%nat -> disableDarkMode p = (p1, Ret tt)) /\
  ((1 <= count_id p FALLBACK_STYLE_ID)%nat ->
   disableDarkMode p = (remove_by_id p1 FALLBACK_STYLE_ID, Ret tt)).
Proof.
  intros p1.
  assert (Hc : count_id p1 FALLBACK_STYLE_ID = count_id p FALLBACK_STYLE_ID).
  { rewrite (count_id_root p r _ Hr). apply count_tree_removeProperty. }
  unfold disableDarkMode. rewrite Hr, Hs. cbn [negb]. fold p1.
  split.
  - intros H0. by rewrite (proj2 (getElementById_None_iff _ _)) by lia.
  - intros H1. destruct (getElementById p1 _) eqn:E; [done|].
    apply getElementById_None_iff in E. lia.
Qed.

Lemma enableDarkMode_no_root p : document_element p = None -> enableDarkMode p = (p, Throw "TypeError").
Proof. intros H. unfold enableDarkMode. by rewrite H. Qed.

Lemma enableDarkMode_no_style p r :
  document_element p = Some r -> has_style r = false -> enableDarkMode p = (p, Throw "TypeError").
Proof. intros H Hs. unfold enableDarkMode. by rewrite H, Hs. Qed.

Lemma disableDarkMode_no_root p : document_element p = None -> disableDarkMode p = (p, Throw "TypeError").
Proof. intros H. unfold disableDarkMode. by rewrite H. Qed.

Lemma disableDarkMode_no_style p r :
  document_element p = Some r -> has_style r = false -> disableDarkMode p = (p, Throw "TypeError").
Proof. intros H Hs. unfold disableDarkMode. by rewrite H, Hs. Qed.

Lemma page_eta p r : document_element p = Some r -> {| document_element := Some r |} = p.
Proof. destruct p; cbn; congruence. Qed.

End PageLemmas.

Section PageRemoval.

Lemma remove_first_eq id e :
  remove_first id e =
  if String.eqb (el_id e) id then Some None
  else match rm_list (remove_first id) (el_children e) with
       | Some cs => Some (Some (with_children e cs))
       | None => None
       end.
Proof. by destruct e. Qed.

Lemma rm_list_cons f c l :
  rm_list f (c :: l) =
  match f c with
  | Some None => Some l
  | Some (Some c') => Some (c' :: l)
  | None => option_map (cons c) (rm_list f l)
  end.
Proof. reflexivity. Qed.

(** Removal finds an element exactly when the subtree has one, and
    removes at least one. *)
Lemma remove_first_spec id e :
  (remove_first id e = None <-> count_tree id e = 0%nat) /\
  (forall o, remove_first id e = Some o ->
     (match o with Some e' => count_tree id e' | None => 0 end < count_tree id e)%nat).
Proof.
  revert e. apply element_nested_ind. intros e Hch.
  assert (L : forall l, Forall (fun e => (remove_first id e = None <-> count_tree id e = 0%nat) /\
              (forall o, remove_first id e = Some o ->
                 (match o with Some e' => count_tree id e' | None => 0 end < count_tree id e)%nat)) l ->
           (rm_list (remove_first id) l = None <-> count_forest id l = 0%nat) /\
           (forall l', rm_list (remove_first id) l = Some l' -> (count_forest id l' < count_forest id l)%nat)).
  { induction 1 as [|c l [Hc1 Hc2] _ [IH1 IH2]].
    - split; [done|discriminate].
    - rewrite rm_list_cons, count_forest_cons.
      destruct (remove_first id c) as [[c'|]|] eqn:E.
      + specialize (Hc2 _ eq_refl). cbv beta iota in Hc2. split; [split; [discriminate|intros; lia]|].
        intros l' [= <-]. rewrite count_forest_cons. lia.
      + specialize (Hc2 _ eq_refl). cbv beta iota in Hc2. split; [split; [discriminate|intros; lia]|].
        intros l' [= <-]. lia.
      + pose proof (proj1 Hc1 eq_refl) as E0. rewrite E0.
        destruct (rm_list (remove_first id) l) as [l1|] eqn:E1; cbn.
        * split; [split; [discriminate|intros H; apply IH1 in H; congruence]|].
          intros l' [= <-]. rewrite count_forest_cons, E0. specialize (IH2 _ eq_refl). lia.
        * split; [split; [intros _; by apply IH1 | done]|discriminate]. }
  destruct (L _ Hch) as [L1 L2].
  rewrite remove_first_eq, count_tree_eq.
  destruct (String.eqb (el_id e) id) eqn:Eid.
  - split; [split; [discriminate|intros; lia]|]. intros o [= <-]. lia.
  - destruct (rm_list (remove_first id) (el_children e)) as [cs|] eqn:E.
    + split; [split; [discriminate|intros H; apply L1 in H; congruence]|].
      intros o [= <-]. rewrite count_tree_with_children, Eid. specialize (L2 _ eq_refl). lia.
    + split; [split; [intros _; by apply L1 | done]|discriminate].
Qed.

Lemma count_remove_by_id p id :
  (1 <= count_id p id)%nat -> (count_id (remove_by_id p id) id < count_id p id)%nat.
Proof.
  unfold remove_by_id. destruct (document_element p) as [r|] eqn:Hr.
  2:{ rewrite count_id_no_root by done. lia. }
  rewrite (count_id_root p r id Hr). intros H1.
  destruct (remove_first_spec id r) as [S1 S2].
  destruct (remove_first id r) as [o|] eqn:E.
  - specialize (S2 _ eq_refl). destruct o as [r'|].
    + by rewrite count_id_some.
    + rewrite count_id_no_root by done. exact S2.
  - pose proof (proj1 S1 eq_refl). lia.
Qed.

Lemma remove_first_keeps_style id e e' :
  remove_first id e = Some (Some e') -> el_style e' = el_style e.
Proof.
  rewrite remove_first_eq. destruct (String.eqb _ _); [discriminate|].
  destruct (rm_list _ _); [|discriminate]. intros [= <-]. by destruct e.
Qed.

Lemma remove_first_root id e :
  String.eqb (el_id e) id = false -> remove_first id e <> Some None.
Proof.
  rewrite remove_first_eq. intros ->. by destruct (rm_list _ _).
Qed.

(** A declaration of the document element that is absent stays absent,
    and one that is present stays present unless the document element
    itself is removed. *)
Lemma root_decl_remove_by_id p id n :
  root_decl (remove_by_id p id) n = None \/ root_decl (remove_by_id p id) n = root_decl p n.
Proof.
  unfold remove_by_id. destruct (document_element p) as [r|] eqn:Hr; [|by right].
  destruct (remove_first id r) as [[r'|]|] eqn:E; [|by left|by right].
  right. unfold root_decl. cbn. rewrite Hr. by rewrite (remove_first_keeps_style _ _ _ E).
Qed.

Lemma root_decl_remove_by_id_kept p id n :
  (forall r, document_element p = Some r -> el_id r <> id) ->
  root_decl (remove_by_id p id) n = root_decl p n.
Proof.
  intros Hid. unfold remove_by_id. destruct (document_element p) as [r|] eqn:Hr; [|done].
  destruct (remove_first id r) as [[r'|]|] eqn:E; [| |done].
  - unfold root_decl. cbn. rewrite Hr. by rewrite (remove_first_keeps_style _ _ _ E).
  - exfalso. apply (remove_first_root id r); [|exact E].
    apply String.eqb_neq. exact (Hid r eq_refl).
Qed.

(** Removing the appended link from a [head] without the reserved id
    gives back the children as they were. *)
Lemma rm_list_app_last id l x :
  count_forest id l = 0%nat -> String.eqb (el_id x) id = true ->
  rm_list (remove_first id) (l ++ [x]) = Some l.
Proof.
  intros Hl Hx. induction l as [|c l IH]; cbn [app].
  - rewrite rm_list_cons, remove_first_eq, Hx. reflexivity.
  - rewrite count_forest_cons in Hl. rewrite rm_list_cons.
    rewrite (proj2 (proj1 (remove_first_spec id c))) by lia.
    rewrite IH by lia. reflexivity.
Qed.

Lemma rm_list_append_first_head id cs x :
  count_forest id cs = 0%nat -> String.eqb (el_id x) id = true ->
  find (fun c => is_html c "head") cs <> None ->
  rm_list (remove_first id) (append_first_head cs x) = Some cs.
Proof.
  intros Hcs Hx. induction cs as [|c cs IH]; [cbn; done|]. cbn [append_first_head List.find].
  rewrite count_forest_cons, count_tree_eq in Hcs.
  destruct (is_html c "head") eqn:Eh.
  - intros _. rewrite rm_list_cons, remove_first_eq.
    destruct (with_children_fields c (el_children c ++ [x])) as (-> & -> & _).
    destruct (String.eqb (el_id c) id) eqn:Ei; [lia|].
    rewrite rm_list_app_last by (done || lia).
    by rewrite with_children_twice, with_children_children.
  - intros Hh. rewrite rm_list_cons.
    assert (Hc0 : count_tree id c = 0%nat) by (rewrite count_tree_eq; destruct (String.eqb _ _); lia).
    rewrite (proj2 (proj1 (remove_first_spec id c)) Hc0).
    rewrite IH by (done || lia). reflexivity.
Qed.

End PageRemoval.

Section DarkModeFacts.

Lemma enableDarkMode_idem p : fst (enableDarkMode (fst (enableDarkMode p))) = fst (enableDarkMode p).
Proof.
  destruct (document_element p) as [r|] eqn:Hr.
  2:{ rewrite (enableDarkMode_no_root p Hr). cbn [fst]. by rewrite (enableDarkMode_no_root p Hr). }
  destruct (has_style r) eqn:Hs.
  2:{ rewrite (enableDarkMode_no_style p r Hr Hs). cbn [fst]. by rewrite (enableDarkMode_no_style p r Hr Hs). }
  destruct (enableDarkMode_spec p r Hr Hs) as (E1 & E2 & E3).
  set (r1 := setProperty r "color-scheme" "dark" "important") in *.
  destruct (setProperty_fields r "color-scheme" "dark" "important") as (Hs1 & _ & _).
  fold r1 in Hs1. rewrite Hs in Hs1.
  assert (Hc1 : count_id {| document_element := Some r1 |} FALLBACK_STYLE_ID = count_id p FALLBACK_STYLE_ID).
  { rewrite count_id_some, (count_id_root p r _ Hr). apply count_tree_setProperty. }
  destruct (count_id p FALLBACK_STYLE_ID) eqn:C.
  - destruct (document_head p) eqn:Hh.
    + rewrite E3 by (done || congruence). cbn [fst].
      set (r2 := with_children r1 (append_first_head (el_children r1) fallback_link)).
      assert (Hp2 : appendToHead {| document_element := Some r1 |} fallback_link
                    = {| document_element := Some r2 |}) by reflexivity.
      rewrite Hp2.
      assert (Hs2 : has_style r2 = true) by (subst r2; destruct r1; exact Hs1).
      destruct (enableDarkMode_spec {| document_element := Some r2 |} r2 eq_refl Hs2) as (F1 & _ & _).
      rewrite F1.
      * cbn [fst]. subst r2 r1. by rewrite setProperty_with_children_setProperty.
      * rewrite <- Hp2, count_appendToHead, count_tree_fallback_link; [lia|].
        unfold r1. rewrite document_head_setProperty, (page_eta p r Hr). congruence.
    + rewrite E2 by done. cbn [fst].
      destruct (enableDarkMode_spec {| document_element := Some r1 |} r1 eq_refl Hs1) as (_ & F2 & _).
      rewrite F2; [cbn [fst]; subst r1; by rewrite setProperty_idem | done |].
      subst r1. rewrite document_head_setProperty, (page_eta p r Hr). exact Hh.
  - rewrite E1 by lia. cbn [fst].
    destruct (enableDarkMode_spec {| document_element := Some r1 |} r1 eq_refl Hs1) as (F1 & _ & _).
    rewrite F1 by lia. cbn [fst]. subst r1. by rewrite setProperty_idem.
Qed.

(** With [document.head] and at most one element with the reserved id,
    [enableDarkMode] returns and leaves the page Dark. *)
Lemma enable_is_dark p :
  document_head p <> None -> (count_id p FALLBACK_STYLE_ID <= 1)%nat ->
  is_dark (fst (enableDarkMode p)) /\ snd (enableDarkMode p) = Ret tt.
Proof.
  intros Hh Hle. destruct (document_head_root p Hh) as (r & Hr & Hhtml & _).
  pose proof (is_html_has_style r "html" Hhtml) as Hs.
  destruct (enableDarkMode_spec p r Hr Hs) as (E1 & _ & E3).
  assert (Hd : root_decl {| document_element := Some (setProperty r "color-scheme" "dark" "important") |}
                 "color-scheme" = Some ("dark", "important")).
  { unfold root_decl; cbn [document_element].
    destruct (setProperty_fields r "color-scheme" "dark" "important") as (_ & _ & ->).
    apply decl_lookup_set_eq. }
  destruct (count_id p FALLBACK_STYLE_ID) as [|[|]] eqn:C; [| |lia].
  - rewrite E3 by done. cbn [fst snd]. split; [split|done].
    + by rewrite root_decl_appendToHead.
    + rewrite count_appendToHead, count_tree_fallback_link.
      * rewrite count_id_some, count_tree_setProperty, <- (count_id_root p r _ Hr), C. done.
      * rewrite document_head_setProperty, (page_eta p r Hr). exact Hh.
  - rewrite E1 by lia. cbn [fst snd]. split; [split|done]; [exact Hd|].
    rewrite count_id_some, count_tree_setProperty, <- (count_id_root p r _ Hr). exact C.
Qed.

(** With at most one element with the reserved id and a document
    element that has a [style] (or no document element), the page is
    Light after [disableDarkMode]. *)
Lemma disable_is_light q :
  (count_id q FALLBACK_STYLE_ID <= 1)%nat ->
  (forall r, document_element q = Some r -> has_style r = true) ->
  is_light (fst (disableDarkMode q)).
Proof.
  intros Hle Hst. destruct (document_element q) as [r|] eqn:Hr.
  2:{ rewrite (disableDarkMode_no_root q Hr). cbn [fst]. split.
      - unfold root_decl. by rewrite Hr.
      - by apply count_id_no_root. }
  pose proof (Hst r eq_refl) as Hs.
  destruct (disableDarkMode_spec q r Hr Hs) as (D0 & D1).
  assert (Hd : root_decl {| document_element := Some (removeProperty r "color-scheme") |} "color-scheme" = None)
    by apply removeProperty_lookup_eq.
  assert (Hc : count_id {| document_element := Some (removeProperty r "color-scheme") |} FALLBACK_STYLE_ID
               = count_id q FALLBACK_STYLE_ID).
  { rewrite count_id_some, count_tree_removeProperty. symmetry. by apply count_id_root. }
  destruct (count_id q FALLBACK_STYLE_ID) as [|[|]] eqn:C; [| |lia].
  - rewrite D0 by done. cbn [fst]. split; [exact Hd|]. by rewrite Hc.
  - rewrite D1 by lia. cbn [fst]. split.
    + destruct (root_decl_remove_by_id {| document_element := Some (removeProperty r "color-scheme") |}
                  FALLBACK_STYLE_ID "color-scheme") as [H|H]; rewrite H; [done|exact Hd].
    + pose proof (count_remove_by_id {| document_element := Some (removeProperty r "color-scheme") |}
                    FALLBACK_STYLE_ID) as Hrm. rewrite Hc in Hrm. lia.
Qed.

(** On a Light page, [disableDarkMode] changes nothing. *)
Lemma disable_light_noop q : is_light q -> fst (disableDarkMode q) = q.
Proof.
  intros [Hd Hc]. destruct (document_element q) as [r|] eqn:Hr.
  2:{ by rewrite (disableDarkMode_no_root q Hr). }
  destruct (has_style r) eqn:Hs.
  2:{ by rewrite (disableDarkMode_no_style q r Hr Hs). }
  destruct (disableDarkMode_spec q r Hr Hs) as (D0 & _).
  rewrite D0 by exact Hc. cbn [fst].
  unfold root_decl in Hd. rewrite Hr in Hd.
  rewrite removeProperty_absent by exact Hd. by apply page_eta.
Qed.

End DarkModeFacts.

(* ================================================================== *)
(** ** Claims about the page context *)

(** C4 fails as stated: on a page with two elements carrying the
    reserved id, enabling twice leaves both; on an SVG document,
    [document.head] is null, so [enableDarkMode] throws after setting
    the property and no fallback element is ever added. *)
Lemma enableDarkMode_twice_counterexample :
  count_id two_fallback_page FALLBACK_STYLE_ID = 2%nat /\
  count_id (fst (enableDarkMode (fst (enableDarkMode two_fallback_page)))) FALLBACK_STYLE_ID = 2%nat /\
  document_head svg_page = None /\
  snd (enableDarkMode (fst (enableDarkMode svg_page))) = Throw "TypeError" /\
  root_decl (fst (enableDarkMode (fst (enableDarkMode svg_page)))) "color-scheme"
  = Some ("dark", "important") /\
  count_id (fst (enableDarkMode (fst (enableDarkMode svg_page)))) FALLBACK_STYLE_ID = 0%nat.
Proof. repeat split; vm_compute; reflexivity. Qed.

(** C4 (amended): on a document with a non-null [document.head] and at
    most one element with the reserved id, applying the enable
    transition twice gives the same page as applying it once, with
    exactly one element with the reserved id and the document element's
    [color-scheme: dark !important]; the disable transition leaves any
    page with at most one such element and a styleable document element
    Light (property removed, fallback element removed if present), and
    on a page in the Light state it changes nothing. *)
Theorem enableDarkMode_twice_single_fallback (p : page)
    (Hhead : document_head p <> None)
    (Huniq : (count_id p FALLBACK_STYLE_ID <= 1)%nat) :
  fst (enableDarkMode (fst (enableDarkMode p))) = fst (enableDarkMode p) /\
  is_dark (fst (enableDarkMode (fst (enableDarkMode p)))) /\
  (forall q, (count_id q FALLBACK_STYLE_ID <= 1)%nat ->
             (forall r, document_element q = Some r -> has_style r = true) ->
             is_light (fst (disableDarkMode q))) /\
  (forall q, is_light q -> fst (disableDarkMode q) = q).
Proof.
  split; [apply enableDarkMode_idem|].
  split; [|split].
  - rewrite enableDarkMode_idem. by apply enable_is_dark.
  - apply disable_is_light.
  - apply disable_light_noop.
Qed.

Lemma enableDarkMode_twice_single_fallback_witness :
  document_head empty_page <> None /\ (count_id empty_page FALLBACK_STYLE_ID <= 1)%nat /\
  is_dark (fst (enableDarkMode (fst (enableDarkMode empty_page)))).
Proof.
  split; [vm_compute; discriminate|]. split; [vm_compute; lia|].
  apply (enableDarkMode_twice_single_fallback empty_page); [vm_compute; discriminate | vm_compute; lia].
Defined.

(** C5: a message changes the page only when [event.source === window]
    and [event.data.source === 'toothlit-background']; a message failing
    either check leaves the page as it is. *)
Theorem onMessage_requires_window_and_marker (ev : message_event) (p : page)
    (Hrej : ev_source_is_window ev = false \/ has_marker (ev_data ev) = false) :
  onMessage ev p = p.
Proof.
  destruct ev as [w [|src act]]; unfold onMessage; cbn in *; [done|].
  destruct Hrej as [-> | ->]; [reflexivity | by rewrite andb_false_r].
Qed.

Lemma onMessage_requires_window_and_marker_witness :
  onMessage {| ev_source_is_window := true;
               ev_data := DValue (Some "page-script") (Some "enableDarkMode") |} empty_page
  = empty_page.
Proof.
  apply onMessage_requires_window_and_marker. right. reflexivity.
Defined.

Section InitialCheck.

(** For a domain with an own entry, or a failed read, the initial check
    does what the comment of the content script says. *)
Lemma initialCheck_own_entry (domain : string) (settings : option (gmap string bool)) (p : page) :
  (default ∅ settings !! domain = Some true -> initialCheck domain (Ret settings) p = fst (enableDarkMode p)) /\
  (default ∅ settings !! domain = Some false -> initialCheck domain (Ret settings) p = p) /\
  (forall e, initialCheck domain (Throw e) p = p).
Proof.
  unfold initialCheck, obj_get. repeat split; intros H; try rewrite H; reflexivity.
Qed.

End InitialCheck.

(** C8 (fails on the code): on the page of the domain "constructor",
    with nothing stored for it, [allDomains["constructor"]] is the
    inherited [Object] constructor, which is truthy, so the initial
    check turns a Light page Dark. *)
Theorem initialCheck_constructor_goes_dark :
  (default ∅ None : gmap string bool) !! "constructor" = None /\
  is_light empty_page /\
  initialCheck "constructor" (Ret None) empty_page = fst (enableDarkMode empty_page) /\
  is_dark (initialCheck "constructor" (Ret None) empty_page).
Proof. vm_compute. repeat split. Qed.

(* ================================================================== *)
(** ** Background lemmas *)

Ltac unfold_bg :=
  unfold onClicked, notifyTab, getDomainFromUrl, getDomainState, setDomainState, updateIcon,
    execute_script, set_icon, storage_get, storage_set, host_call, console_error,
    record, modify, try_catch, bind, ret, throw in *.

Ltac solve_faults :=
  unfold succeeds in *;
  repeat match goal with
         | H : _ \/ _ |- _ => destruct H
         | H : _ /\ _ |- _ => destruct H
         end;
  repeat split; congruence.

Section RunLemmas.

Lemma getDomainFromUrl_run {idna : string -> option string} url st :
  getDomainFromUrl idna url st =
  (Ret (option_map Url.hostname (Url.parse idna url)),
   match Url.parse idna url with
   | Some _ => set_steps (steps st ++ [SResolve url]) st
   | None => set_logs (logs st ++ ["ToothLit: Invalid URL - " ++ url])
               (set_steps (steps st ++ [SResolve url]) st)
   end).
Proof. unfold_bg. destruct (Url.parse idna url); reflexivity. Qed.

Lemma getDomainState_run d st :
  exists v st', getDomainState d st = (Ret v, st') /\
    steps st' = (steps st ++ [SGetState d])%list /\
    store st' = store st /\ icons st' = icons st /\ posted st' = posted st /\
    (forall fs, succeeds (faults st) fs ->
       v = or_false (obj_get (default ∅ (store st)) d) /\ faults st' = fs) /\
    (forall fs, faults st = true :: fs -> v = JBool false /\ faults st' = fs).
Proof.
  destruct st as [s0 i0 p0 l0 f0 st0]. unfold_bg; cbn.
  destruct f0 as [|[] f1]; cbn; do 2 eexists; (split; [reflexivity|]); cbn;
    do 4 (split; [reflexivity|]); split; intros fs Hfs; solve_faults.
Qed.

Lemma setDomainState_run d b st :
  exists st', setDomainState d b st = (Ret tt, st') /\
    steps st' = (steps st ++ [SSetState d b])%list /\
    icons st' = icons st /\ posted st' = posted st /\
    (forall fs1 fs2, succeeds (faults st) fs1 -> succeeds fs1 fs2 ->
       store st' = Some (obj_set (default ∅ (store st)) d b) /\ faults st' = fs2) /\
    (forall fs, faults st = true :: fs -> store st' = store st /\ faults st' = fs) /\
    (forall fs1 fs2, succeeds (faults st) fs1 -> fs1 = true :: fs2 ->
       store st' = store st /\ faults st' = fs2).
Proof.
  destruct st as [s0 i0 p0 l0 f0 st0]. unfold_bg; cbn.
  destruct f0 as [|[] [|[] f2]]; cbn; eexists; (split; [reflexivity|]); cbn;
    do 3 (split; [reflexivity|]); (split; [|split]); intros; solve_faults.
Qed.

Lemma updateIcon_run tabId b st :
  exists st', updateIcon tabId b st = (Ret tt, st') /\
    steps st' = (steps st ++ [SUpdateIcon tabId b])%list /\
    store st' = store st /\ posted st' = posted st /\
    (forall fs, succeeds (faults st) fs ->
       icons st' = <[tabId := icon_path_for b]> (icons st) /\ faults st' = fs) /\
    (forall fs, faults st = true :: fs -> icons st' = icons st /\ faults st' = fs).
Proof.
  destruct st as [s0 i0 p0 l0 f0 st0]. unfold_bg; cbn.
  destruct f0 as [|[] f1]; cbn; eexists; (split; [reflexivity|]); cbn;
    do 3 (split; [reflexivity|]); split; intros; solve_faults.
Qed.

Lemma notifyTab_run tabId b st :
  exists st', notifyTab tabId b st = (Ret tt, st') /\
    steps st' = (steps st ++ [SNotify tabId b])%list /\
    store st' = store st /\ icons st' = icons st /\
    (forall fs, succeeds (faults st) fs ->
       posted st' = (posted st ++ [(tabId, background_message b)])%list /\ faults st' = fs) /\
    (forall fs, faults st = true :: fs -> posted st' = posted st /\ faults st' = fs).
Proof.
  destruct st as [s0 i0 p0 l0 f0 st0]. unfold notifyTab. unfold_bg; cbn.
  destruct f0 as [|[] f1]; cbn; eexists; (split; [reflexivity|]); cbn;
    do 3 (split; [reflexivity|]); split; intros; solve_faults.
Qed.

End RunLemmas.

(** The click listener on a tab whose URL has a non-empty hostname runs
    [getDomainState], [setDomainState], [updateIcon] and [notifyTab] in
    this order, each on the state the previous one left. *)
Lemma onClicked_compose {idna : string -> option string} (t : tab) (st : bg_state) (u : Url.url) v st2 st3 st4 st5
    (Hp : Url.parse idna (default "undefined" (tab_url t)) = Some u)
    (Hne : Url.hostname u <> "")
    (E2 : getDomainState (Url.hostname u)
            (set_steps (steps st ++ [SResolve (default "undefined" (tab_url t))]) st) = (Ret v, st2))
    (E3 : setDomainState (Url.hostname u) (negb (truthy v)) st2 = (Ret tt, st3))
    (E4 : updateIcon (tab_id t) (negb (truthy v)) st3 = (Ret tt, st4))
    (E5 : notifyTab (tab_id t) (negb (truthy v)) st4 = (Ret tt, st5)) :
  onClicked idna t st = (Ret tt, st5).
Proof.
  unfold onClicked. unfold bind at 1. rewrite getDomainFromUrl_run, Hp. cbn [option_map].
  destruct (String.eqb_spec (Url.hostname u) "") as [|_]; [contradiction|].
  unfold bind. rewrite E2, E3, E4. exact E5.
Qed.

(** Run the four steps of a click on [st] and name what each one leaves. *)
Ltac run_click t st u Hp Hne :=
  destruct (getDomainState_run (Url.hostname u)
              (set_steps (steps st ++ [SResolve (default "undefined" (tab_url t))]) st))
    as (v & st2 & E2 & G1 & G2 & G3 & G4 & G5 & G6);
  destruct (setDomainState_run (Url.hostname u) (negb (truthy v)) st2)
    as (st3 & E3 & S1 & S2 & S3 & S4 & S5 & S6);
  destruct (updateIcon_run (tab_id t) (negb (truthy v)) st3)
    as (st4 & E4 & I1 & I2 & I3 & I4 & I5);
  destruct (notifyTab_run (tab_id t) (negb (truthy v)) st4)
    as (st5 & E5 & N1 & N2 & N3 & N4 & N5);
  pose proof (onClicked_compose t st u v st2 st3 st4 st5 Hp Hne E2 E3 E4 E5) as EC;
  cbn [steps store icons posted faults set_steps set_faults] in G1, G2, G3, G4, G5, G6.

(** A click whose URL does not parse, or parses to an empty hostname,
    returns before touching the store, the icons or the page. *)
Lemma onClicked_falsy_domain_noop {idna : string -> option string} (t : tab) (st : bg_state) :
  falsy_domain (option_map Url.hostname (Url.parse idna (default "undefined" (tab_url t)))) = true ->
  store (snd (onClicked idna t st)) = store st /\ icons (snd (onClicked idna t st)) = icons st /\
  posted (snd (onClicked idna t st)) = posted st /\ faults (snd (onClicked idna t st)) = faults st.
Proof.
  intros H. unfold onClicked, bind. rewrite !getDomainFromUrl_run.
  unfold falsy_domain in H.
  destruct (Url.parse idna _) as [u|]; cbn [option_map] in H |- *.
  - rewrite H. repeat split.
  - repeat split.
Qed.

(** [getDomainState] never rejects; a failed read gives [false]; a
    domain with no own entry and no inherited property gives [false]. *)
Lemma getDomainState_defaults (d : string) (st : bg_state) :
  (exists v, fst (getDomainState d st) = Ret v) /\
  (forall fs, faults st = true :: fs -> fst (getDomainState d st) = Ret (JBool false)) /\
  (forall fs, succeeds (faults st) fs -> default ∅ (store st) !! d = None ->
     proto_get d = JUndefined -> fst (getDomainState d st) = Ret (JBool false)).
Proof.
  destruct (getDomainState_run d st) as (v & st' & E & _ & _ & _ & _ & G5 & G6).
  rewrite E; cbn. split; [eauto|]. split.
  - intros fs Hf. by destruct (G6 fs Hf) as [-> _].
  - intros fs Hf Hn Hp. destruct (G5 fs Hf) as [-> _].
    unfold obj_get. rewrite Hn, Hp. reflexivity.
Qed.

(* ================================================================== *)
(** ** Claims about the background context *)

(** C1 (amended): a click on a tab whose URL resolves to a non-null,
    non-empty domain [d] resolves the domain, reads the state [v] of [d],
    stores [!v] for [d], sets the icon to [!v] and notifies the tab with
    [!v], in this order and whatever the host calls do; when no host call
    fails, the store holds [!v] for [d] (as [allDomains[d] = !v] writes
    it), the tab shows the icon set of [!v], and the page received
    [{source: 'toothlit-background', action}] with the enable action when
    [!v] is true and the disable action when it is false. *)
Theorem onClicked_toggle_steps {idna : string -> option string} (t : tab) (st : bg_state) (u : Url.url)
    (Hp : Url.parse idna (default "undefined" (tab_url t)) = Some u)
    (Hne : Url.hostname u <> "") :
  let url := default "undefined" (tab_url t) in
  let d := Url.hostname u in
  exists v, fst (getDomainState d (set_steps (steps st ++ [SResolve url]) st)) = Ret v /\
    let nv := negb (truthy v) in
    steps (snd (onClicked idna t st))
    = (steps st ++ [SResolve url; SGetState d; SSetState d nv; SUpdateIcon (tab_id t) nv;
                    SNotify (tab_id t) nv])%list /\
    (faults st = [] ->
       v = or_false (obj_get (default ∅ (store st)) d) /\
       store (snd (onClicked idna t st)) = Some (obj_set (default ∅ (store st)) d nv) /\
       icons (snd (onClicked idna t st)) !! tab_id t = Some (icon_path_for nv) /\
       posted (snd (onClicked idna t st)) = (posted st ++ [(tab_id t, background_message nv)])%list /\
       msg_action (background_message nv) = (if nv then "enableDarkMode" else "disableDarkMode")).
Proof.
  intros url d; subst url d. run_click t st u Hp Hne.
  exists v. split; [by rewrite E2|]. rewrite EC; cbn [fst snd]. split.
  - rewrite N1, I1, S1, G1. rewrite <- !app_assoc. reflexivity.
  - intros Hf. rewrite Hf in G5, G6.
    destruct (G5 [] (or_intror (conj eq_refl eq_refl))) as [Hv Hf2].
    destruct (S4 [] [] (or_intror (conj Hf2 eq_refl)) (or_intror (conj eq_refl eq_refl)))
      as [Hs3 Hf3].
    destruct (I4 [] (or_intror (conj Hf3 eq_refl))) as [Hi4 Hf4].
    destruct (N4 [] (or_intror (conj Hf4 eq_refl))) as [Hp5 _].
    split; [exact Hv|]. split; [|split; [|split]].
    + rewrite N2, I2, Hs3, G2. reflexivity.
    + rewrite N3, Hi4. apply lookup_insert_eq.
    + rewrite Hp5, I3, S3, G4. reflexivity.
    + reflexivity.
Qed.

Lemma onClicked_toggle_steps_witness :
  exists u, Url.parse idna_reject_all (default "undefined" (tab_url news_tab)) = Some u /\
            Url.hostname u <> "" /\
            exists v, fst (getDomainState (Url.hostname u)
                             (set_steps (steps init_bg ++ [SResolve "https://news.example/a"]) init_bg))
                      = Ret v.
Proof.
  eexists. split; [reflexivity|]. split; [discriminate|].
  destruct (onClicked_toggle_steps (idna := idna_reject_all) news_tab init_bg
              {| Url.scheme := "https"; Url.host := Some "news.example" |}
              eq_refl ltac:(discriminate)) as [v [Hv _]].
  exists v. exact Hv.
Defined.

(** The parse of "about:blank" never consults the IDNA step. *)
Lemma onClicked_about_blank_any_idna {idna : string -> option string} :
  fst (getDomainFromUrl idna "about:blank" init_bg) = Ret (Some "") /\
  steps (snd (onClicked idna {| tab_id := 3; tab_url := Some "about:blank" |} init_bg))
  = [SResolve "about:blank"].
Proof. split; reflexivity. Qed.

(** C1 fails as stated: "about:blank" resolves to the non-null domain
    "", and the click records only the resolution step (whatever the
    IDNA step, see [onClicked_about_blank_any_idna]). *)
Lemma onClicked_about_blank_stops :
  fst (getDomainFromUrl idna_reject_all "about:blank" init_bg) = Ret (Some "") /\
  steps (snd (onClicked idna_reject_all {| tab_id := 3; tab_url := Some "about:blank" |} init_bg))
  = [SResolve "about:blank"].
Proof. split; reflexivity. Qed.

(** C2 fails as stated: when the storage read inside [setDomainState]
    rejects, nothing is written (the error is only logged) and the
    following [getDomainState] still reads [false]. *)
Lemma set_then_get_read_failure :
  fst (set_then_get "example.com" true (set_faults [true] init_bg)) = Ret (JBool false).
Proof. reflexivity. Qed.

(** C2 (amended): for every domain other than "__proto__" and every
    boolean [b], when the storage read and write of [setDomainState d b]
    and the read of the following [getDomainState d] succeed, the read
    returns [b]; when the read or the write of [setDomainState] rejects,
    the persisted map is left as it was. *)
Theorem setDomainState_getDomainState_roundtrip (d : string) (b : bool) (st : bg_state)
    (rest : list bool) (Hd : d <> "__proto__") :
  fst (set_then_get d b (set_faults (false :: false :: false :: rest) st)) = Ret (JBool b) /\
  (forall fs, store (snd (setDomainState d b (set_faults (true :: fs) st))) = store st) /\
  (forall fs, store (snd (setDomainState d b (set_faults (false :: true :: fs) st))) = store st).
Proof.
  split; [|split].
  - unfold set_then_get, bind.
    destruct (setDomainState_run d b (set_faults (false :: false :: false :: rest) st))
      as (st3 & E3 & _ & _ & _ & S4 & _ & _).
    rewrite E3.
    destruct (getDomainState_run d st3) as (v & st4 & E4 & _ & _ & _ & _ & G5 & _).
    rewrite E4; cbn [fst].
    destruct (S4 (false :: false :: rest) (false :: rest) (or_introl eq_refl) (or_introl eq_refl))
      as [Hs Hf].
    destruct (G5 rest (or_introl Hf)) as [-> _].
    rewrite Hs. cbn [default]. unfold obj_set, obj_get.
    destruct (String.eqb_spec d "__proto__") as [|_]; [contradiction|].
    unfold id. rewrite lookup_insert_eq. by destruct b.
  - intros fs.
    destruct (setDomainState_run d b (set_faults (true :: fs) st))
      as (st3 & E3 & _ & _ & _ & _ & S5 & _).
    rewrite E3; cbn [snd]. by destruct (S5 fs eq_refl) as [-> _].
  - intros fs.
    destruct (setDomainState_run d b (set_faults (false :: true :: fs) st))
      as (st3 & E3 & _ & _ & _ & _ & _ & S6).
    rewrite E3; cbn [snd]. by destruct (S6 (true :: fs) fs (or_introl eq_refl) eq_refl) as [-> _].
Qed.

Lemma setDomainState_getDomainState_roundtrip_witness :
  "news.example" <> "__proto__" /\
  fst (set_then_get "news.example" false (set_faults [false; false; false] init_bg))
  = Ret (JBool false).
Proof.
  split; [discriminate|].
  exact (proj1 (setDomainState_getDomainState_roundtrip "news.example" false init_bg []
                  ltac:(discriminate))).
Defined.

(** C3 (fails on the code): nothing was ever written, the storage read
    succeeds, and [getDomainState("constructor")] yields the inherited
    [Object] constructor, not [false]. *)
Theorem getDomainState_unwritten_constructor :
  store init_bg = None /\
  fst (getDomainState "constructor" init_bg) = Ret (JFunction "Object") /\
  truthy (JFunction "Object") = true.
Proof. repeat split. Qed.

Lemma getDomainFromUrl_about_blank_any_idna {idna : string -> option string} :
  option_map Url.host (Url.parse idna "about:blank") = Some None /\
  fst (getDomainFromUrl idna "about:blank" init_bg) = Ret (Some "").
Proof. split; reflexivity. Qed.

(** C6 fails as stated: "about:blank" parses with a null host, and
    [getDomainFromUrl] returns "" for it, not null (whatever the IDNA
    step, see [getDomainFromUrl_about_blank_any_idna]). *)
Lemma getDomainFromUrl_about_blank_empty :
  option_map Url.host (Url.parse idna_reject_all "about:blank") = Some None /\
  fst (getDomainFromUrl idna_reject_all "about:blank" init_bg) = Ret (Some "").
Proof. split; reflexivity. Qed.

(** C6 (amended): [getDomainFromUrl] returns null exactly for inputs
    [new URL] rejects (such as "not a url"), and "" for URLs that parse
    with no host; for a tab whose URL is of either kind the click
    listener changes neither the store nor the icons. *)
Theorem getDomainFromUrl_null_or_empty_noop {idna : string -> option string} (t : tab) (st : bg_state)
    (Hbad : Url.parse idna (default "undefined" (tab_url t)) = None \/
            exists u, Url.parse idna (default "undefined" (tab_url t)) = Some u /\ Url.hostname u = "") :
  fst (getDomainFromUrl idna "not a url" st) = Ret None /\
  (forall url, fst (getDomainFromUrl idna url st) = Ret None <-> Url.parse idna url = None) /\
  store (snd (onClicked idna t st)) = store st /\ icons (snd (onClicked idna t st)) = icons st.
Proof.
  split; [|split].
  - rewrite getDomainFromUrl_run. reflexivity.
  - intros url. rewrite getDomainFromUrl_run; cbn [fst].
    destruct (Url.parse idna url); cbn; split; congruence.
  - destruct (onClicked_falsy_domain_noop (idna := idna) t st) as (Hs & Hi & _).
    + destruct Hbad as [-> | (u & -> & Hu)]; [reflexivity|]. cbn. by rewrite Hu.
    + split; assumption.
Qed.

Lemma getDomainFromUrl_null_or_empty_noop_witness :
  store (snd (onClicked idna_reject_all {| tab_id := 2; tab_url := Some "not a url" |} init_bg)) = store init_bg.
Proof.
  exact (proj1 (proj2 (proj2 (getDomainFromUrl_null_or_empty_noop (idna := idna_reject_all)
                                {| tab_id := 2; tab_url := Some "not a url" |} init_bg
                                (or_introl eq_refl))))).
Defined.

(** C7: when the storage calls and the icon update succeed and the
    delivery into the page fails, the flipped value stays stored and the
    icon stays on the new state: nothing is rolled back. *)
Theorem onClicked_delivery_failure_no_rollback {idna : string -> option string} (t : tab) (st : bg_state) (u : Url.url)
    (rest : list bool)
    (Hp : Url.parse idna (default "undefined" (tab_url t)) = Some u)
    (Hne : Url.hostname u <> "") :
  let d := Url.hostname u in
  let nv := negb (truthy (or_false (obj_get (default ∅ (store st)) d))) in
  let st' := snd (onClicked idna t (set_faults ([false; false; false; false; true] ++ rest) st)) in
  store st' = Some (obj_set (default ∅ (store st)) d nv) /\
  icons st' !! tab_id t = Some (icon_path_for nv) /\
  posted st' = posted st.
Proof.
  intros d nv st'; subst d nv st'.
  run_click t (set_faults ([false; false; false; false; true] ++ rest) st) u Hp Hne.
  rewrite EC; cbn [snd].
  destruct (G5 ([false; false; false; true] ++ rest)%list (or_introl eq_refl)) as [Hv Hf2].
  subst v.
  destruct (S4 ([false; false; true] ++ rest)%list ([false; true] ++ rest)%list
              (or_introl Hf2) (or_introl eq_refl)) as [Hs3 Hf3].
  destruct (I4 ([true] ++ rest)%list (or_introl Hf3)) as [Hi4 Hf4].
  destruct (N5 rest Hf4) as [Hp5 _].
  split; [|split].
  - rewrite N2, I2, Hs3, G2. reflexivity.
  - rewrite N3, Hi4. apply lookup_insert_eq.
  - rewrite Hp5, I3, S3, G4. reflexivity.
Qed.

Lemma onClicked_delivery_failure_no_rollback_witness :
  store (snd (onClicked idna_reject_all news_tab (set_faults [false; false; false; false; true] init_bg)))
  = Some {[ "news.example" := true ]}.
Proof.
  pose proof (onClicked_delivery_failure_no_rollback (idna := idna_reject_all) news_tab init_bg
                {| Url.scheme := "https"; Url.host := Some "news.example" |} []
                eq_refl ltac:(discriminate)) as [H _].
  rewrite app_nil_r in H. rewrite H. reflexivity.
Defined.

(** C10: a URL that parses with an empty hostname (such as
    "about:blank") makes [getDomainFromUrl] return "", not null, and the
    click listener then stops at [if (!domain) return;]: no store
    mutation, no icon update, no notification. *)
Theorem onClicked_empty_hostname_noop {idna : string -> option string} (t : tab) (st : bg_state) (u : Url.url)
    (Hp : Url.parse idna (default "undefined" (tab_url t)) = Some u)
    (Hempty : Url.hostname u = "") :
  fst (getDomainFromUrl idna (default "undefined" (tab_url t)) st) = Ret (Some "") /\
  store (snd (onClicked idna t st)) = store st /\ icons (snd (onClicked idna t st)) = icons st /\
  posted (snd (onClicked idna t st)) = posted st.
Proof.
  split.
  - rewrite getDomainFromUrl_run, Hp. cbn. by rewrite Hempty.
  - destruct (onClicked_falsy_domain_noop (idna := idna) t st) as (Hs & Hi & Hpo & _).
    + rewrite Hp. cbn. by rewrite Hempty.
    + auto.
Qed.

Lemma onClicked_empty_hostname_noop_witness :
  posted (snd (onClicked idna_reject_all {| tab_id := 4; tab_url := Some "about:blank" |} init_bg)) = [].
Proof.
  exact (proj2 (proj2 (proj2 (onClicked_empty_hostname_noop (idna := idna_reject_all)
                                {| tab_id := 4; tab_url := Some "about:blank" |} init_bg
                                {| Url.scheme := "about"; Url.host := None |}
                                eq_refl eq_refl)))).
Defined.

(* ================================================================== *)
(** ** Hostnames of URLs with a special scheme *)

Section UrlLemmas.













End UrlLemmas.

Section UrlParseLemmas.












End UrlParseLemmas.

Lemma opaque_host_any_idna {idna : string -> option string} :
  fst (getDomainFromUrl idna "foo://Example.com/" init_bg) = Ret (Some "Example.com").
Proof. reflexivity. Qed.




(* ================================================================== *)
(** ** Further properties of the background context *)

Section BackgroundFacts.

Lemma truthy_or_false v : truthy (or_false v) = truthy v.
Proof. by destruct v as [|[]| |]. Qed.

Lemma obj_get_obj_set_eq m d b : d <> "__proto__" -> obj_get (obj_set m d b) d = JBool b.
Proof.
  intros Hd. unfold obj_get, obj_set.
  destruct (String.eqb_spec d "__proto__"); [contradiction|]. by rewrite lookup_insert_eq.
Qed.

Lemma obj_set_lookup_ne m d b d' : d' <> d -> obj_set m d b !! d' = m !! d'.
Proof.
  intros Hne. unfold obj_set. destruct (String.eqb _ _); [done|].
  by rewrite lookup_insert_ne by congruence.
Qed.

Lemma obj_set_not_proto m d b : d <> "__proto__" -> obj_set m d b = <[d := b]> m.
Proof. intros Hd. unfold obj_set. by destruct (String.eqb_spec d "__proto__"). Qed.

(** A click on a tab with a non-empty hostname when no host call fails. *)
Lemma onClicked_success {idna : string -> option string} (t : tab) (st : bg_state) (u : Url.url)
    (Hp : Url.parse idna (default "undefined" (tab_url t)) = Some u)
    (Hne : Url.hostname u <> "") (Hf : faults st = []) :
  let d := Url.hostname u in
  let nv := negb (truthy (obj_get (default ∅ (store st)) d)) in
  fst (onClicked idna t st) = Ret tt /\
  store (snd (onClicked idna t st)) = Some (obj_set (default ∅ (store st)) d nv) /\
  icons (snd (onClicked idna t st)) = <[tab_id t := icon_path_for nv]> (icons st) /\
  posted (snd (onClicked idna t st)) = (posted st ++ [(tab_id t, background_message nv)])%list /\
  faults (snd (onClicked idna t st)) = [].
Proof.
  intros d nv; subst d nv. run_click t st u Hp Hne.
  rewrite EC; cbn [fst snd]. rewrite Hf in G5.
  destruct (G5 [] (or_intror (conj eq_refl eq_refl))) as [Hv Hf2]. subst v.
  rewrite truthy_or_false in *.
  destruct (S4 [] [] (or_intror (conj Hf2 eq_refl)) (or_intror (conj eq_refl eq_refl)))
    as [Hs3 Hf3].
  destruct (I4 [] (or_intror (conj Hf3 eq_refl))) as [Hi4 Hf4].
  destruct (N4 [] (or_intror (conj Hf4 eq_refl))) as [Hp5 Hf5].
  split; [reflexivity|]. split; [|split; [|split]].
  - rewrite N2, I2, Hs3, G2. reflexivity.
  - rewrite N3, Hi4, S2, G3. reflexivity.
  - rewrite Hp5, I3, S3, G4. reflexivity.
  - exact Hf5.
Qed.

(** The [onUpdated] listener on a status other than "complete" returns at once. *)
Lemma onUpdated_not_complete {idna : string -> option string} tabId s t :
  s <> "complete" -> onUpdated idna tabId (Some s) t = ret tt.
Proof.
  intros Hs. unfold onUpdated. destruct (tab_url t);
  repeat match goal with
         | |- context [match ?x with _ => _ end] => is_var x; destruct x
         end; try reflexivity; contradiction.
Qed.

End BackgroundFacts.

Section OnUpdatedRun.

(** [onUpdated] on a complete tab whose URL has a non-empty hostname:
    [getDomainState] of the hostname, then [updateIcon] on [tabId]. *)
Lemma onUpdated_complete_run {idna : string -> option string} tabId t url u st
    (Hu : tab_url t = Some url) (Hp : Url.parse idna url = Some u) (Hne : Url.hostname u <> "") :
  onUpdated idna tabId (Some "complete") t st =
  bind (getDomainState (Url.hostname u)) (fun v => updateIcon tabId (truthy v))
       (set_steps (steps st ++ [SResolve url]) st).
Proof.
  unfold onUpdated. rewrite Hu.
  destruct (String.eqb_spec url "") as [->|_]; [discriminate Hp|].
  unfold bind at 1. rewrite getDomainFromUrl_run, Hp. cbn [option_map].
  destruct (String.eqb_spec (Url.hostname u) "") as [|_]; [contradiction|]. reflexivity.
Qed.

(** [updateIcon] changes at most the icon of its own tab. *)
Lemma updateIcon_other_tabs tabId b st i :
  i <> tabId -> icons (snd (updateIcon tabId b st)) !! i = icons st !! i.
Proof.
  intros Hi. destruct (updateIcon_run tabId b st) as (st' & E & _ & _ & _ & I4 & I5).
  rewrite E; cbn [snd].
  destruct (faults st) as [|[] fs] eqn:F.
  - destruct (I4 [] (or_intror (conj eq_refl eq_refl))) as [-> _]. by rewrite lookup_insert_ne.
  - by destruct (I5 fs eq_refl) as [-> _].
  - destruct (I4 fs (or_introl eq_refl)) as [-> _]. by rewrite lookup_insert_ne.
Qed.

End OnUpdatedRun.

(** [onUpdated] never rejects, never writes the store and never posts a
    message into a page; at most the icon of the updated tab changes. *)
Theorem onUpdated_icon_only {idna : string -> option string} (tabId : Z) (status : option string) (t : tab) (st : bg_state) :
  fst (onUpdated idna tabId status t st) = Ret tt /\
  store (snd (onUpdated idna tabId status t st)) = store st /\
  posted (snd (onUpdated idna tabId status t st)) = posted st /\
  (forall i, i <> tabId -> icons (snd (onUpdated idna tabId status t st)) !! i = icons st !! i).
Proof.
  destruct status as [s|];
    [destruct (String.eqb_spec s "complete") as [->|Hs]; [|rewrite onUpdated_not_complete by exact Hs]|];
    [|repeat split; reflexivity | unfold onUpdated; repeat split; reflexivity].
  unfold onUpdated. destruct (tab_url t) as [url|]; [|repeat split; reflexivity].
  destruct (String.eqb url ""); [repeat split; reflexivity|].
  unfold bind. rewrite getDomainFromUrl_run.
  destruct (Url.parse idna url) as [u|]; cbn [option_map]; [|repeat split; reflexivity].
  destruct (String.eqb (Url.hostname u) ""); [repeat split; reflexivity|].
  match goal with |- context [getDomainState ?d ?s] =>
    destruct (getDomainState_run d s) as (v & st2 & E & _ & G2 & G3 & G4 & _) end.
  rewrite E.
  destruct (updateIcon_run tabId (truthy v) st2) as (st3 & E' & _ & I2 & I3 & _).
  pose proof (updateIcon_other_tabs tabId (truthy v) st2) as Hi.
  rewrite E' in Hi |- *; cbn [fst snd] in *.
  cbn [store posted icons set_steps] in G2, G3, G4.
  split; [reflexivity|]. split; [congruence|]. split; [congruence|].
  intros i Hne. rewrite Hi by exact Hne. rewrite G3. reflexivity.
Qed.

(** When a tab finishes loading a URL with a non-empty hostname [d],
    [onUpdated] sets the icon of the tab id it was given to the state
    stored for [d] (on for a truthy value, off otherwise); when the
    storage read fails, it sets the "off" icon. *)
Theorem onUpdated_sets_stored_icon {idna : string -> option string} (tabId : Z) (t : tab) (url : string) (u : Url.url)
    (st : bg_state)
    (Hu : tab_url t = Some url) (Hp : Url.parse idna url = Some u) (Hne : Url.hostname u <> "") :
  let d := Url.hostname u in
  (faults st = [] ->
     icons (snd (onUpdated idna tabId (Some "complete") t st))
     = <[tabId := icon_path_for (truthy (obj_get (default ∅ (store st)) d))]> (icons st)) /\
  (faults st = [true] ->
     icons (snd (onUpdated idna tabId (Some "complete") t st))
     = <[tabId := icon_path_for false]> (icons st)).
Proof.
  intros d; subst d. rewrite (onUpdated_complete_run (idna := idna) tabId t url u st Hu Hp Hne).
  unfold bind.
  destruct (getDomainState_run (Url.hostname u) (set_steps (steps st ++ [SResolve url]) st))
    as (v & st2 & E & _ & _ & G3 & _ & G5 & G6).
  rewrite E.
  destruct (updateIcon_run tabId (truthy v) st2) as (st3 & E' & _ & _ & _ & I4 & _).
  rewrite E'; cbn [snd]. cbn [faults store icons set_steps] in G3, G5, G6.
  split; intros Hf; rewrite Hf in G5, G6.
  - destruct (G5 [] (or_intror (conj eq_refl eq_refl))) as [-> Hf2].
    destruct (I4 [] (or_intror (conj Hf2 eq_refl))) as [-> _].
    by rewrite G3, truthy_or_false.
  - destruct (G6 [] eq_refl) as [-> Hf2].
    destruct (I4 [] (or_intror (conj Hf2 eq_refl))) as [-> _].
    by rewrite G3.
Qed.

Lemma onUpdated_sets_stored_icon_witness :
  icons (snd (onUpdated idna_reject_all 9 (Some "complete") news_tab
                (set_store (Some {[ "news.example" := true ]}) init_bg)))
  = {[ 9%Z := icon_path_for true ]}.
Proof.
  exact (proj1 (onUpdated_sets_stored_icon (idna := idna_reject_all) 9 news_tab "https://news.example/a"
                  {| Url.scheme := "https"; Url.host := Some "news.example" |}
                  (set_store (Some {[ "news.example" := true ]}) init_bg)
                  eq_refl eq_refl ltac:(discriminate)) eq_refl).
Defined.

(** The click listener never rejects, whatever the tab and whichever
    host calls fail: every failure is caught inside the listener. *)
Theorem onClicked_never_rejects {idna : string -> option string} (t : tab) (st : bg_state) :
  fst (onClicked idna t st) = Ret tt.
Proof.
  unfold onClicked. unfold bind. rewrite getDomainFromUrl_run.
  destruct (Url.parse idna _) as [u|]; cbn [option_map]; [|reflexivity].
  destruct (String.eqb _ _); [reflexivity|].
  match goal with |- context [getDomainState ?d ?s] =>
    destruct (getDomainState_run d s) as (v & st2 & E & _) end.
  rewrite E.
  destruct (setDomainState_run (Url.hostname u) (negb (truthy v)) st2) as (st3 & E3 & _).
  rewrite E3.
  destruct (updateIcon_run (tab_id t) (negb (truthy v)) st3) as (st4 & E4 & _).
  rewrite E4.
  destruct (notifyTab_run (tab_id t) (negb (truthy v)) st4) as (st5 & E5 & _).
  rewrite E5. reflexivity.
Qed.

(** A tab without a URL reaches [new URL] as "undefined", which does not
    parse: the click only logs the invalid URL and changes nothing else. *)
Theorem onClicked_no_url_noop {idna : string -> option string} (t : tab) (st : bg_state) (Hu : tab_url t = None) :
  onClicked idna t st
  = (Ret tt, set_logs (logs st ++ ["ToothLit: Invalid URL - undefined"])
                      (set_steps (steps st ++ [SResolve "undefined"]) st)).
Proof. unfold onClicked, bind. rewrite getDomainFromUrl_run, Hu. reflexivity. Qed.

Lemma onClicked_no_url_noop_witness :
  snd (onClicked idna_reject_all {| tab_id := 6; tab_url := None |} init_bg)
  = set_logs ["ToothLit: Invalid URL - undefined"] (set_steps [SResolve "undefined"] init_bg).
Proof. rewrite (onClicked_no_url_noop (idna := idna_reject_all) {| tab_id := 6; tab_url := None |} init_bg eq_refl). reflexivity. Defined.

(** Two clicks in a row on the same tab, with no host call failing,
    leave the domain stored as the boolean [truthy(allDomains[d])] that
    the first click read (false for an absent ordinary name, true for an
    inherited one such as "constructor"), the icon on that state, every other domain as it was, and two messages
    posted, the first with the flipped state and the second with the
    original one; the domain "__proto__" is left out, whose writes the
    code drops. *)
Theorem onClicked_twice_restores {idna : string -> option string} (t : tab) (st : bg_state) (u : Url.url)
    (Hp : Url.parse idna (default "undefined" (tab_url t)) = Some u)
    (Hne : Url.hostname u <> "") (Hproto : Url.hostname u <> "__proto__")
    (Hf : faults st = []) :
  let d := Url.hostname u in
  let b0 := truthy (obj_get (default ∅ (store st)) d) in
  let st2 := snd (onClicked idna t (snd (onClicked idna t st))) in
  default ∅ (store st2) !! d = Some b0 /\
  (forall d', d' <> d -> default ∅ (store st2) !! d' = default ∅ (store st) !! d') /\
  icons st2 = <[tab_id t := icon_path_for b0]> (icons st) /\
  posted st2 = (posted st ++ [(tab_id t, background_message (negb b0));
                              (tab_id t, background_message b0)])%list.
Proof.
  intros d b0 st2; subst d b0 st2.
  destruct (onClicked_success (idna := idna) t st u Hp Hne Hf) as (_ & S1 & I1 & P1 & F1).
  destruct (onClicked_success (idna := idna) t (snd (onClicked idna t st)) u Hp Hne F1) as (_ & S2 & I2 & P2 & _).
  rewrite S2, I2, P2, S1, I1, P1. cbn [default from_option id].
  rewrite obj_get_obj_set_eq by exact Hproto. cbn [truthy]. rewrite negb_involutive.
  rewrite !(obj_set_not_proto _ _ _ Hproto).
  split; [|split; [|split]].
  - apply lookup_insert_eq.
  - intros d' Hd'. by rewrite !lookup_insert_ne by congruence.
  - apply insert_insert_eq.
  - rewrite <- app_assoc. reflexivity.
Qed.

Lemma onClicked_twice_restores_witness :
  default ∅ (store (snd (onClicked idna_reject_all news_tab (snd (onClicked idna_reject_all news_tab init_bg)))))
    !! "news.example" = Some false.
Proof.
  exact (proj1 (onClicked_twice_restores (idna := idna_reject_all) news_tab init_bg
                  {| Url.scheme := "https"; Url.host := Some "news.example" |}
                  eq_refl ltac:(discriminate) ltac:(discriminate) eq_refl)).
Defined.

(** When only the first storage read of a click fails, [getDomainState]
    falls back to [false] and the click turns the domain on, whatever was
    stored for it before: the stored map gets [d := true] (other domains
    are kept, since [setDomainState]'s own read succeeds), the icon shows
    the "on" set and the page is told to enable dark mode. *)
Theorem onClicked_read_failure_enables {idna : string -> option string} (t : tab) (st : bg_state) (u : Url.url)
    (Hp : Url.parse idna (default "undefined" (tab_url t)) = Some u)
    (Hne : Url.hostname u <> "") (Hproto : Url.hostname u <> "__proto__")
    (Hf : faults st = [true]) :
  let d := Url.hostname u in
  store (snd (onClicked idna t st)) = Some (<[d := true]> (default ∅ (store st))) /\
  icons (snd (onClicked idna t st)) !! tab_id t = Some (icon_path_for true) /\
  posted (snd (onClicked idna t st)) = (posted st ++ [(tab_id t, background_message true)])%list.
Proof.
  intros d; subst d. run_click t st u Hp Hne.
  rewrite EC; cbn [snd]. rewrite Hf in G5, G6.
  destruct (G6 [] eq_refl) as [Hv Hf2]. subst v. cbn [truthy negb] in *.
  destruct (S4 [] [] (or_intror (conj Hf2 eq_refl)) (or_intror (conj eq_refl eq_refl)))
    as [Hs3 Hf3].
  destruct (I4 [] (or_intror (conj Hf3 eq_refl))) as [Hi4 Hf4].
  destruct (N4 [] (or_intror (conj Hf4 eq_refl))) as [Hp5 _].
  split; [|split].
  - rewrite N2, I2, Hs3, G2, obj_set_not_proto by exact Hproto. reflexivity.
  - rewrite N3, Hi4. apply lookup_insert_eq.
  - rewrite Hp5, I3, S3, G4. reflexivity.
Qed.

Lemma onClicked_read_failure_enables_witness :
  store (snd (onClicked idna_reject_all news_tab (set_faults [true] (set_store (Some {[ "news.example" := true ]}) init_bg))))
  = Some {[ "news.example" := true ]}.
Proof.
  rewrite (proj1 (onClicked_read_failure_enables (idna := idna_reject_all) news_tab
                    (set_faults [true] (set_store (Some {[ "news.example" := true ]}) init_bg))
                    {| Url.scheme := "https"; Url.host := Some "news.example" |}
                    eq_refl ltac:(discriminate) ltac:(discriminate) eq_refl)).
  reflexivity.
Defined.

(** [setDomainState(d, b)] never changes the entry of another domain,
    whichever of its storage calls fail. *)
Theorem setDomainState_keeps_other_domains (d : string) (b : bool) (st : bg_state) (d' : string)
    (Hne : d' <> d) :
  default ∅ (store (snd (setDomainState d b st))) !! d' = default ∅ (store st) !! d'.
Proof.
  destruct (setDomainState_run d b st) as (st' & E & _ & _ & _ & S4 & S5 & S6).
  rewrite E; cbn [snd].
  destruct (faults st) as [|[] [|[] fs]] eqn:F.
  - destruct (S4 [] [] (or_intror (conj eq_refl eq_refl)) (or_intror (conj eq_refl eq_refl)))
      as [-> _].
    by apply obj_set_lookup_ne.
  - by destruct (S5 [] eq_refl) as [-> _].
  - by destruct (S5 _ eq_refl) as [-> _].
  - by destruct (S5 _ eq_refl) as [-> _].
  - destruct (S4 [] [] (or_introl eq_refl) (or_intror (conj eq_refl eq_refl))) as [-> _].
    by apply obj_set_lookup_ne.
  - by destruct (S6 _ fs (or_introl eq_refl) eq_refl) as [-> _].
  - destruct (S4 _ fs (or_introl eq_refl) (or_introl eq_refl)) as [-> _].
    by apply obj_set_lookup_ne.
Qed.

Lemma setDomainState_keeps_other_domains_witness :
  default ∅ (store (snd (setDomainState "b.example" true
                           (set_store (Some {[ "a.example" := true ]}) init_bg)))) !! "a.example"
  = Some true.
Proof.
  rewrite (setDomainState_keeps_other_domains "b.example" true
             (set_store (Some {[ "a.example" := true ]}) init_bg) "a.example" ltac:(discriminate)).
  reflexivity.
Defined.

(** With nothing stored yet ([settings[SETTINGS_KEY]] undefined), a
    successful [setDomainState(d, b)] stores the object [{d: b}]; for
    the domain "__proto__" it stores an empty object. *)
Theorem setDomainState_creates_settings (d : string) (b : bool) (st : bg_state)
    (Hnone : store st = None) (Hf : faults st = []) :
  store (snd (setDomainState d b st))
  = Some (if String.eqb d "__proto__" then ∅ else {[ d := b ]}).
Proof.
  destruct (setDomainState_run d b st) as (st' & E & _ & _ & _ & S4 & _).
  rewrite E; cbn [snd]. rewrite Hf in S4.
  destruct (S4 [] [] (or_intror (conj eq_refl eq_refl)) (or_intror (conj eq_refl eq_refl)))
    as [-> _].
  rewrite Hnone. reflexivity.
Qed.

Lemma setDomainState_creates_settings_witness :
  store (snd (setDomainState "news.example" true init_bg)) = Some {[ "news.example" := true ]}.
Proof. exact (setDomainState_creates_settings "news.example" true init_bg eq_refl eq_refl). Defined.

(** [getDomainState] only reads: it never changes the store, the icons
    or the posted messages, and never rejects; for a domain with an own
    stored entry [b] and a successful read it returns [b]. *)
Theorem getDomainState_own_entry (d : string) (b : bool) (st : bg_state)
    (Hown : default ∅ (store st) !! d = Some b) (Hf : faults st = []) :
  fst (getDomainState d st) = Ret (JBool b) /\
  (forall st0, store (snd (getDomainState d st0)) = store st0 /\
               icons (snd (getDomainState d st0)) = icons st0 /\
               posted (snd (getDomainState d st0)) = posted st0).
Proof.
  split.
  - destruct (getDomainState_run d st) as (v & st' & E & _ & _ & _ & _ & G5 & _).
    rewrite E; cbn [fst]. rewrite Hf in G5.
    destruct (G5 [] (or_intror (conj eq_refl eq_refl))) as [-> _].
    unfold obj_get. rewrite Hown. by destruct b.
  - intros st0. destruct (getDomainState_run d st0) as (v & st' & E & _ & G2 & G3 & G4 & _).
    rewrite E. auto.
Qed.

Lemma getDomainState_own_entry_witness :
  fst (getDomainState "news.example" (set_store (Some {[ "news.example" := true ]}) init_bg))
  = Ret (JBool true).
Proof.
  exact (proj1 (getDomainState_own_entry "news.example" true
                  (set_store (Some {[ "news.example" := true ]}) init_bg) eq_refl eq_refl)).
Defined.

(* ================================================================== *)
(** ** Further properties of the page context *)

Section PageFacts.

(** The page a message from the background script leads to. *)
Lemma onMessage_background (b : bool) (p : page) :
  onMessage {| ev_source_is_window := true; ev_data := message_data (background_message b) |} p
  = if b then fst (enableDarkMode p) else fst (disableDarkMode p).
Proof. destruct b; reflexivity. Qed.

Lemma removeProperty_id e n : el_id (removeProperty e n) = el_id e.
Proof. unfold removeProperty. destruct (decl_lookup _ _); by destruct e. Qed.

Lemma count_tree_fallback_link_other id :
  id <> FALLBACK_STYLE_ID -> count_tree id fallback_link = 0%nat.
Proof.
  intros Hid.
  change (count_tree id fallback_link)
    with (length (if String.eqb FALLBACK_STYLE_ID id then [fallback_link] else [])).
  destruct (String.eqb_spec FALLBACK_STYLE_ID id); [congruence | reflexivity].
Qed.

(** [enableDarkMode] keeps a document element, with its [style] and its id. *)
Lemma enable_root p r :
  document_element p = Some r ->
  exists r', document_element (fst (enableDarkMode p)) = Some r' /\
             has_style r' = has_style r /\ el_id r' = el_id r.
Proof.
  intros Hr. unfold enableDarkMode. rewrite Hr.
  destruct (negb (has_style r)); [by exists r|].
  destruct (getElementById _ _); [|destruct (document_head _)]; cbn;
    (eexists; split; [reflexivity|]); by destruct r.
Qed.

Lemma enable_root_style p :
  (forall r, document_element p = Some r -> has_style r = true) ->
  forall r, document_element (fst (enableDarkMode p)) = Some r -> has_style r = true.
Proof.
  intros Hst r' Hr'. destruct (document_element p) as [r|] eqn:Hr.
  - destruct (enable_root p r Hr) as (r2 & H2 & Hs2 & _). rewrite H2 in Hr'.
    injection Hr' as <-. rewrite Hs2. by apply Hst.
  - rewrite (enableDarkMode_no_root p Hr) in Hr'. cbn in Hr'. congruence.
Qed.

Lemma document_head_style p :
  document_head p <> None -> forall r, document_element p = Some r -> has_style r = true.
Proof.
  intros Hh r Hr. destruct (document_head_root p Hh) as (r' & Hr' & Hhtml & _).
  rewrite Hr in Hr'. injection Hr' as <-. exact (is_html_has_style r "html" Hhtml).
Qed.

Lemma count_disable_le p :
  (count_id (fst (disableDarkMode p)) FALLBACK_STYLE_ID <= count_id p FALLBACK_STYLE_ID)%nat.
Proof.
  destruct (document_element p) as [r|] eqn:Hr.
  2:{ rewrite (disableDarkMode_no_root p Hr). done. }
  destruct (has_style r) eqn:Hs.
  2:{ rewrite (disableDarkMode_no_style p r Hr Hs). done. }
  destruct (disableDarkMode_spec p r Hr Hs) as (D0 & D1).
  assert (Hc : count_id {| document_element := Some (removeProperty r "color-scheme") |} FALLBACK_STYLE_ID
               = count_id p FALLBACK_STYLE_ID).
  { rewrite count_id_some, count_tree_removeProperty. symmetry. by apply count_id_root. }
  destruct (count_id p FALLBACK_STYLE_ID) as [|c] eqn:C.
  - rewrite D0 by done. cbn [fst]. lia.
  - rewrite D1 by lia. cbn [fst].
    pose proof (count_remove_by_id {| document_element := Some (removeProperty r "color-scheme") |}
                  FALLBACK_STYLE_ID) as Hrm. rewrite Hc in Hrm. lia.
Qed.

(** Declarations other than [color-scheme] of the document element. *)
Lemma enable_root_decl_ne p n :
  n <> "color-scheme" -> root_decl (fst (enableDarkMode p)) n = root_decl p n.
Proof.
  intros Hn. destruct (document_element p) as [r|] eqn:Hr.
  2:{ by rewrite (enableDarkMode_no_root p Hr). }
  destruct (has_style r) eqn:Hs.
  2:{ by rewrite (enableDarkMode_no_style p r Hr Hs). }
  assert (H1 : root_decl {| document_element := Some (setProperty r "color-scheme" "dark" "important") |} n
               = root_decl p n).
  { unfold root_decl. rewrite Hr. cbn [document_element].
    rewrite (proj2 (proj2 (setProperty_fields r "color-scheme" "dark" "important"))).
    by apply decl_lookup_set_ne. }
  unfold enableDarkMode. rewrite Hr, Hs. cbn [negb].
  destruct (getElementById _ _); [exact H1|].
  destruct (document_head _); [|exact H1].
  cbn [fst]. by rewrite root_decl_appendToHead.
Qed.

Lemma disable_root_decl_ne p n :
  n <> "color-scheme" ->
  (forall r, document_element p = Some r -> el_id r <> FALLBACK_STYLE_ID) ->
  root_decl (fst (disableDarkMode p)) n = root_decl p n.
Proof.
  intros Hn Hid. destruct (document_element p) as [r|] eqn:Hr.
  2:{ by rewrite (disableDarkMode_no_root p Hr). }
  destruct (has_style r) eqn:Hs.
  2:{ by rewrite (disableDarkMode_no_style p r Hr Hs). }
  assert (H1 : root_decl {| document_element := Some (removeProperty r "color-scheme") |} n
               = root_decl p n).
  { unfold root_decl. rewrite Hr. cbn [document_element]. by apply removeProperty_lookup_ne. }
  unfold disableDarkMode. rewrite Hr, Hs. cbn [negb].
  destruct (getElementById _ _); [|exact H1].
  cbn [fst]. rewrite root_decl_remove_by_id_kept; [exact H1|].
  intros r' [= <-]. rewrite removeProperty_id. by apply Hid.
Qed.

Lemma enable_count_other p id :
  id <> FALLBACK_STYLE_ID -> count_id (fst (enableDarkMode p)) id = count_id p id.
Proof.
  intros Hid. destruct (document_element p) as [r|] eqn:Hr.
  2:{ by rewrite (enableDarkMode_no_root p Hr). }
  destruct (has_style r) eqn:Hs.
  2:{ by rewrite (enableDarkMode_no_style p r Hr Hs). }
  assert (H1 : count_id {| document_element := Some (setProperty r "color-scheme" "dark" "important") |} id
               = count_id p id).
  { rewrite count_id_some, count_tree_setProperty. symmetry. by apply count_id_root. }
  unfold enableDarkMode. rewrite Hr, Hs. cbn [negb].
  destruct (getElementById _ _); [exact H1|].
  destruct (document_head _) eqn:Eh; [|exact H1].
  cbn [fst]. rewrite count_appendToHead by (rewrite Eh; discriminate).
  rewrite H1, count_tree_fallback_link_other by exact Hid. lia.
Qed.

End PageFacts.

(** Enabling then disabling dark mode on a page in the Light state whose
    [document.head] is not null: both transitions return, and the page
    is the one it started from, except that the document element now has
    a [style] attribute (left as [style=""] when it had no declaration):
    the property is removed again and the appended fallback link is the
    element removed. *)
Theorem disableDarkMode_enableDarkMode_light (p : page) (Hlight : is_light p)
    (Hhead : document_head p <> None) :
  snd (enableDarkMode p) = Ret tt /\
  snd (disableDarkMode (fst (enableDarkMode p))) = Ret tt /\
  fst (disableDarkMode (fst (enableDarkMode p))) = with_style_attr p.
Proof.
  destruct Hlight as [Hd Hc].
  destruct (document_head_root p Hhead) as (r & Hr & Hhtml & Hh).
  pose proof (is_html_has_style r "html" Hhtml) as Hs.
  rewrite (proj2 (proj2 (enableDarkMode_spec p r Hr Hs))) by done. cbn [fst snd].
  split; [done|].
  unfold root_decl in Hd. rewrite Hr in Hd.
  rewrite (count_id_root p r _ Hr), count_tree_eq in Hc.
  assert (Hid : String.eqb (el_id r) FALLBACK_STYLE_ID = false)
    by (destruct (String.eqb _ _); [lia|done]).
  assert (Hcs : count_forest FALLBACK_STYLE_ID (el_children r) = 0%nat)
    by (destruct (String.eqb _ _); lia).
  set (r2 := with_children (setProperty r "color-scheme" "dark" "important")
               (append_first_head (el_children r) fallback_link)).
  assert (Hp2 : appendToHead {| document_element := Some (setProperty r "color-scheme" "dark" "important") |}
                  fallback_link = {| document_element := Some r2 |}) by (by destruct r).
  assert (Hc2 : count_id {| document_element := Some r2 |} FALLBACK_STYLE_ID = 1%nat).
  { rewrite <- Hp2, count_appendToHead, count_tree_fallback_link.
    - rewrite count_id_some, count_tree_setProperty, count_tree_eq, Hid, Hcs. reflexivity.
    - rewrite document_head_setProperty, (page_eta p r Hr). exact Hhead. }
  rewrite Hp2.
  assert (Hs2 : has_style r2 = true) by (subst r2; by destruct r).
  rewrite (proj2 (disableDarkMode_spec {| document_element := Some r2 |} r2 eq_refl Hs2)) by lia. cbn [fst snd].
  split; [done|].
  assert (Hrm : removeProperty r2 "color-scheme" = with_style r2 (el_style r)).
  { unfold removeProperty.
    assert (E : el_style r2 = decl_set (el_style r) "color-scheme" ("dark", "important"))
      by (subst r2; by destruct r).
    rewrite E, decl_lookup_set_eq, decl_remove_set, decl_remove_absent by exact Hd. reflexivity. }
  rewrite Hrm. unfold remove_by_id. cbn [document_element].
  rewrite remove_first_eq.
  assert (E1 : el_id (with_style r2 (el_style r)) = el_id r) by (subst r2; by destruct r).
  assert (E2 : el_children (with_style r2 (el_style r)) = append_first_head (el_children r) fallback_link)
    by (subst r2; by destruct r).
  rewrite E1, Hid, E2, (rm_list_append_first_head _ _ fallback_link Hcs eq_refl Hh).
  unfold with_style_attr. rewrite Hr. subst r2. by destruct r.
Qed.

Lemma disableDarkMode_enableDarkMode_light_witness :
  fst (disableDarkMode (fst (enableDarkMode empty_page))) = with_style_attr empty_page.
Proof.
  apply (disableDarkMode_enableDarkMode_light empty_page);
    [split; vm_compute; reflexivity | vm_compute; discriminate].
Defined.

(** How the two transitions move a page between the states, on a page
    with at most one element with the reserved id: with a non-null
    [document.head], enabling returns and leaves the page Dark; with a
    styleable document element (or none), disabling leaves it Light;
    with a non-null [document.head], disabling after enabling leaves it
    Light; and when [document.head] is not null after disabling,
    enabling after disabling leaves it Dark. *)
Theorem dark_mode_transitions_switch (p : page) :
  (document_head p <> None -> (count_id p FALLBACK_STYLE_ID <= 1)%nat ->
   is_dark (fst (enableDarkMode p)) /\ snd (enableDarkMode p) = Ret tt) /\
  ((count_id p FALLBACK_STYLE_ID <= 1)%nat ->
   (forall r, document_element p = Some r -> has_style r = true) ->
   is_light (fst (disableDarkMode p))) /\
  (document_head p <> None -> (count_id p FALLBACK_STYLE_ID <= 1)%nat ->
   is_light (fst (disableDarkMode (fst (enableDarkMode p))))) /\
  (document_head (fst (disableDarkMode p)) <> None -> (count_id p FALLBACK_STYLE_ID <= 1)%nat ->
   is_dark (fst (enableDarkMode (fst (disableDarkMode p))))).
Proof.
  split; [|split; [|split]].
  - apply enable_is_dark.
  - apply disable_is_light.
  - intros Hh Hle. destruct (enable_is_dark p Hh Hle) as [[_ Hc] _].
    apply disable_is_light; [lia|].
    apply enable_root_style. by apply document_head_style.
  - intros Hh Hle. apply enable_is_dark; [exact Hh|].
    pose proof (count_disable_le p). lia.
Qed.

Lemma dark_mode_transitions_switch_witness :
  document_head empty_page <> None /\ (count_id empty_page FALLBACK_STYLE_ID <= 1)%nat /\
  is_light (fst (disableDarkMode (fst (enableDarkMode empty_page)))).
Proof.
  split; [vm_compute; discriminate|]. split; [vm_compute; lia|].
  apply (proj1 (proj2 (proj2 (dark_mode_transitions_switch empty_page))));
    [vm_compute; discriminate | vm_compute; lia].
Defined.

(** What the two transitions keep: every declaration of the document
    element other than [color-scheme] (for disabling, when the document
    element does not itself carry the reserved id), and, for enabling,
    the number of elements with any id other than the reserved one. *)
Theorem dark_mode_keeps_other_content (p : page) (n : string) (Hn : n <> "color-scheme") :
  root_decl (fst (enableDarkMode p)) n = root_decl p n /\
  ((forall r, document_element p = Some r -> el_id r <> FALLBACK_STYLE_ID) ->
   root_decl (fst (disableDarkMode p)) n = root_decl p n) /\
  (forall id, id <> FALLBACK_STYLE_ID -> count_id (fst (enableDarkMode p)) id = count_id p id).
Proof.
  split; [|split].
  - by apply enable_root_decl_ne.
  - by apply disable_root_decl_ne.
  - apply enable_count_other.
Qed.

Lemma dark_mode_keeps_other_content_witness :
  root_decl (fst (enableDarkMode styled_page)) "color" = Some ("red", "").
Proof.
  exact (proj1 (dark_mode_keeps_other_content styled_page "color" ltac:(discriminate))).
Defined.

(** Without [document.head] (an SVG document, say) and with no element
    carrying the reserved id, [enableDarkMode] on a styleable document
    element sets [color-scheme: dark !important] on it and then throws a
    TypeError at [document.head.appendChild]: no fallback element is
    added. *)
Theorem enableDarkMode_no_head_throws (p : page) (r : element)
    (Hr : document_element p = Some r) (Hs : has_style r = true)
    (Hhead : document_head p = None) (Hc : count_id p FALLBACK_STYLE_ID = 0%nat) :
  snd (enableDarkMode p) = Throw "TypeError" /\
  root_decl (fst (enableDarkMode p)) "color-scheme" = Some ("dark", "important") /\
  count_id (fst (enableDarkMode p)) FALLBACK_STYLE_ID = 0%nat.
Proof.
  rewrite (proj1 (proj2 (enableDarkMode_spec p r Hr Hs)) Hc Hhead). cbn [fst snd].
  split; [done|split].
  - unfold root_decl; cbn [document_element].
    rewrite (proj2 (proj2 (setProperty_fields r "color-scheme" "dark" "important"))).
    apply decl_lookup_set_eq.
  - rewrite count_id_some, count_tree_setProperty, <- (count_id_root p r _ Hr). exact Hc.
Qed.

Lemma enableDarkMode_no_head_throws_witness :
  snd (enableDarkMode svg_page) = Throw "TypeError".
Proof.
  exact (proj1 (enableDarkMode_no_head_throws svg_page
                  {| el_ns := NsSVG; el_tag := "svg"; el_id := ""; el_rel := ""; el_type := "";
                     el_href := ""; el_style := []; el_style_attr := false; el_children := [] |}
                  eq_refl eq_refl ltac:(vm_compute; reflexivity) ltac:(vm_compute; reflexivity))).
Defined.

(** The message the click listener posts for a new state [b], received
    from the page's own window, on a page with at most one element with
    the reserved id: when [b] is true and [document.head] is not null it
    leaves the page Dark; when [b] is false and the document element has
    a [style] (or there is none) it leaves the page Light. *)
Theorem background_message_sets_state (b : bool) (p : page) :
  let q := onMessage {| ev_source_is_window := true;
                        ev_data := message_data (background_message b) |} p in
  (b = true -> document_head p <> None -> (count_id p FALLBACK_STYLE_ID <= 1)%nat -> is_dark q) /\
  (b = false -> (count_id p FALLBACK_STYLE_ID <= 1)%nat ->
   (forall r, document_element p = Some r -> has_style r = true) -> is_light q).
Proof.
  intros q; subst q. rewrite onMessage_background.
  split; intros ->.
  - intros Hh Hle. exact (proj1 (enable_is_dark p Hh Hle)).
  - apply disable_is_light.
Qed.

Lemma background_message_sets_state_witness :
  is_dark (onMessage {| ev_source_is_window := true;
                        ev_data := message_data (background_message true) |} empty_page).
Proof.
  apply (proj1 (background_message_sets_state true empty_page));
    [reflexivity | vm_compute; discriminate | vm_compute; lia].
Defined.

(** The initial check leaves the page Dark when the stored map has an
    own [true] entry for the page's hostname, [document.head] is not
    null and at most one element carries the reserved id; an own [false]
    entry, a hostname with no entry that reaches nothing on
    [Object.prototype], and a failed read leave the page as it is. *)
Theorem initialCheck_follows_store (domain : string) (settings : option (gmap string bool)) (p : page) :
  (default ∅ settings !! domain = Some true -> document_head p <> None ->
   (count_id p FALLBACK_STYLE_ID <= 1)%nat -> is_dark (initialCheck domain (Ret settings) p)) /\
  (default ∅ settings !! domain = Some false \/
     (default ∅ settings !! domain = None /\ proto_get domain = JUndefined) ->
   initialCheck domain (Ret settings) p = p) /\
  (forall e, initialCheck domain (Throw e) p = p).
Proof.
  unfold initialCheck, obj_get. split; [|split].
  - intros H Hh Hle. rewrite H. exact (proj1 (enable_is_dark p Hh Hle)).
  - intros [H | [H Hp]]; rewrite H; [reflexivity | by rewrite Hp].
  - reflexivity.
Qed.

Lemma initialCheck_follows_store_witness :
  is_dark (initialCheck "news.example" (Ret (Some {[ "news.example" := true ]})) empty_page).
Proof.
  apply (proj1 (initialCheck_follows_store "news.example" (Some {[ "news.example" := true ]}) empty_page)).
  - reflexivity.
  - vm_compute; discriminate.
  - vm_compute; lia.
Defined.

(** The two scripts together: after a click on a tab whose URL has a
    non-empty hostname [d] (other than "__proto__") with no host call
    failing, on a page with a non-null [document.head] and at most one
    element with the reserved id, the page that receives the posted
    message ends in the new state, and a page of [d] loaded afterwards
    gets the same state from the initial check: Dark when the new state
    is true; when it is false the message makes the page Light and the
    initial check leaves the loaded page as it is. *)
Theorem click_then_page_follows {idna : string -> option string} (t : tab) (st : bg_state) (u : Url.url) (p : page)
    (Hp : Url.parse idna (default "undefined" (tab_url t)) = Some u)
    (Hne : Url.hostname u <> "") (Hproto : Url.hostname u <> "__proto__")
    (Hf : faults st = []) (Hhead : document_head p <> None)
    (Huniq : (count_id p FALLBACK_STYLE_ID <= 1)%nat) :
  let d := Url.hostname u in
  let nv := negb (truthy (obj_get (default ∅ (store st)) d)) in
  let st' := snd (onClicked idna t st) in
  exists m, posted st' = (posted st ++ [(tab_id t, m)])%list /\
    let q := onMessage {| ev_source_is_window := true; ev_data := message_data m |} p in
    let r := initialCheck d (Ret (store st')) p in
    (nv = true -> is_dark q /\ is_dark r) /\
    (nv = false -> is_light q /\ r = p).
Proof.
  intros d nv st'; subst d nv st'.
  destruct (onClicked_success (idna := idna) t st u Hp Hne Hf) as (_ & S1 & _ & P1 & _).
  eexists. split; [exact P1|].
  rewrite onMessage_background. unfold initialCheck. rewrite S1. cbn [default from_option id].
  rewrite obj_get_obj_set_eq by exact Hproto. cbn [truthy].
  split; intros Hnv; rewrite Hnv.
  - split; exact (proj1 (enable_is_dark p Hhead Huniq)).
  - split; [|reflexivity]. apply disable_is_light; [exact Huniq|].
    by apply document_head_style.
Qed.

Lemma click_then_page_follows_witness :
  exists m, posted (snd (onClicked idna_reject_all news_tab init_bg)) = [(7%Z, m)] /\
    is_dark (onMessage {| ev_source_is_window := true; ev_data := message_data m |} empty_page).
Proof.
  destruct (click_then_page_follows (idna := idna_reject_all) news_tab init_bg
              {| Url.scheme := "https"; Url.host := Some "news.example" |} empty_page
              eq_refl ltac:(discriminate) ltac:(discriminate) eq_refl
              ltac:(vm_compute; discriminate) ltac:(vm_compute; lia))
    as (m & Hm & Hd & _).
  exists m. split; [exact Hm|]. exact (proj1 (Hd eq_refl)).
Defined.
